(** * BTCommunicator: a shallow embedding of the session manager

    The Python class [BTCommunicator] (src/__init__.py) drives a
    line-oriented command/response protocol over a Bluetooth serial
    stream.  The object is modelled as a record of its properties, its
    methods as computations in a state-and-exception monad in which an
    exception keeps the mutations made before it was raised, and the
    collaborators (output stream, input stream, paired devices) as oracles
    passed to the method that talks to them. *)

From Stdlib Require Import String Ascii List ZArith Bool Arith Lia.
Import ListNotations.
Open Scope string_scope.
Open Scope Z_scope.

(** ** Python primitives used by the class *)

Module Py.

(** ["{} {}".format(a, b)] *)
Definition format2 (a b : string) : string := a ++ " " ++ b.

(** [sep.join(items)] *)
Definition join (sep : string) (items : list string) : string :=
  String.concat sep items.

(** [range(a, b)] *)
Definition range (a b : Z) : list Z :=
  map (fun k => a + Z.of_nat k) (seq 0 (Z.to_nat (b - a))).

(** [l.pop()]: the list without its last item, [None] for the
    [IndexError] of an empty list. *)
Definition pop_last {A} (l : list A) : option (list A) :=
  match l with
  | [] => None
  | _ :: _ => Some (removelast l)
  end.

(** [l.pop(0)]: the list without its first item, [None] for the
    [IndexError] of an empty list. *)
Definition pop_first {A} (l : list A) : option (list A) :=
  match l with
  | [] => None
  | _ :: l' => Some l'
  end.

(** [l.insert(0, x)] *)
Definition insert_first {A} (x : A) (l : list A) : list A := x :: l.

(** [s.rindex(c, start)] for a one-character [c]: the highest index
    [i >= start] with [s[i] = c]; [None] stands for [ValueError].  The
    argument [i] is the index of the head of [s]. *)
Fixpoint rindex_from (c : ascii) (s : list ascii) (start i : nat) : option nat :=
  match s with
  | [] => None
  | x :: s' =>
      match rindex_from c s' start (S i) with
      | Some j => Some j
      | None => if (start <=? i)%nat && Ascii.eqb x c then Some i else None
      end
  end.

Definition rindex (c : ascii) (s : list ascii) (start : nat) : option nat :=
  rindex_from c s start 0.

(** [s.index(c, start)] for a one-character [c]: the lowest index
    [i >= start] with [s[i] = c]. *)
Fixpoint index_from (c : ascii) (s : list ascii) (start i : nat) : option nat :=
  match s with
  | [] => None
  | x :: s' =>
      if (start <=? i)%nat && Ascii.eqb x c then Some i
      else index_from c s' start (S i)
  end.

Definition index (c : ascii) (s : list ascii) (start : nat) : option nat :=
  index_from c s start 0.

(** [s[a:b]] for [0 <= a] and [0 <= b] *)
Definition slice {A} (s : list A) (a b : nat) : list A :=
  firstn (b - a) (skipn a s).

End Py.

(** ** Data model *)

(** The exceptions that leave a method. *)
Inductive exn : Type :=
| BTCommunicatorException (msg : string)
| JavaException (msg : string)
| IndexError
| AttributeError.

(** The event types registered in [__init__]. *)
Inductive event : Type :=
| on_connected
| on_disconnected
| on_command_sent
| on_response
| on_error
| on_unknown.

Definition event_eqb (a b : event) : bool :=
  match a, b with
  | on_connected, on_connected
  | on_disconnected, on_disconnected
  | on_command_sent, on_command_sent
  | on_response, on_response
  | on_error, on_error
  | on_unknown, on_unknown => true
  | _, _ => false
  end.

(** The message table [self._lang['messages']], read from
    lang/<language>.json; the file is not part of the sources, so the
    texts are left arbitrary. *)
Record Lang : Type := {
  disconnect_error : string;
  send_error_JavaException : string;
  send_error_Unknown : string;
  receive_error_IOException : string;
  receive_error_JavaException : string;
  receive_error_Unknown : string;
  device_name_error : string;
  not_android : string
}.

(** A Java stream object is known by a handle; what its methods do is
    answered by the oracles below. *)
Definition handle := nat.

(** The properties and attributes of a [BTCommunicator], followed by the
    observable trace of what it did to its collaborators. *)
Record BTCommunicator : Type := {
  is_connected : bool;
  unknown : string;
  send_reset : bool;
  reset_command : string;
  command_buffer : list string;
  c_buf_length : Z;
  response_buffer : list string;
  r_buf_length : Z;
  device_name : string;
  _ping_interval : Z;
  _is_pingning : bool;
  _num_of_resends : Z;
  _recv_stream : option handle;
  _send_stream : option handle;
  _stop : bool;
  _lang : Lang;
  socket : option handle;
  (** [hasattr(self, 'BluetoothAdapter')], true on Android *)
  BluetoothAdapter : bool;
  (** events handed to [dispatch], oldest first *)
  events : list event;
  (** lines given to [send_stream.write], oldest first *)
  write_attempts : list string;
  (** threads started on [_stream_reader] *)
  reader_threads : nat;
  (** intervals of the [_ping] events scheduled on the clock *)
  ping_schedule : list Z
}.

Definition with_is_connected (v : bool) (s : BTCommunicator) : BTCommunicator :=
  {| is_connected := v; unknown := unknown s; send_reset := send_reset s;
     reset_command := reset_command s; command_buffer := command_buffer s;
     c_buf_length := c_buf_length s; response_buffer := response_buffer s;
     r_buf_length := r_buf_length s; device_name := device_name s;
     _ping_interval := _ping_interval s; _is_pingning := _is_pingning s;
     _num_of_resends := _num_of_resends s; _recv_stream := _recv_stream s;
     _send_stream := _send_stream s; _stop := _stop s; _lang := _lang s;
     socket := socket s; BluetoothAdapter := BluetoothAdapter s;
     events := events s; write_attempts := write_attempts s;
     reader_threads := reader_threads s; ping_schedule := ping_schedule s |}.

Definition with_command_buffer (v : list string) (s : BTCommunicator) : BTCommunicator :=
  {| is_connected := is_connected s; unknown := unknown s; send_reset := send_reset s;
     reset_command := reset_command s; command_buffer := v;
     c_buf_length := c_buf_length s; response_buffer := response_buffer s;
     r_buf_length := r_buf_length s; device_name := device_name s;
     _ping_interval := _ping_interval s; _is_pingning := _is_pingning s;
     _num_of_resends := _num_of_resends s; _recv_stream := _recv_stream s;
     _send_stream := _send_stream s; _stop := _stop s; _lang := _lang s;
     socket := socket s; BluetoothAdapter := BluetoothAdapter s;
     events := events s; write_attempts := write_attempts s;
     reader_threads := reader_threads s; ping_schedule := ping_schedule s |}.

Definition with_response_buffer (v : list string) (s : BTCommunicator) : BTCommunicator :=
  {| is_connected := is_connected s; unknown := unknown s; send_reset := send_reset s;
     reset_command := reset_command s; command_buffer := command_buffer s;
     c_buf_length := c_buf_length s; response_buffer := v;
     r_buf_length := r_buf_length s; device_name := device_name s;
     _ping_interval := _ping_interval s; _is_pingning := _is_pingning s;
     _num_of_resends := _num_of_resends s; _recv_stream := _recv_stream s;
     _send_stream := _send_stream s; _stop := _stop s; _lang := _lang s;
     socket := socket s; BluetoothAdapter := BluetoothAdapter s;
     events := events s; write_attempts := write_attempts s;
     reader_threads := reader_threads s; ping_schedule := ping_schedule s |}.

Definition with_is_pingning (v : bool) (s : BTCommunicator) : BTCommunicator :=
  {| is_connected := is_connected s; unknown := unknown s; send_reset := send_reset s;
     reset_command := reset_command s; command_buffer := command_buffer s;
     c_buf_length := c_buf_length s; response_buffer := response_buffer s;
     r_buf_length := r_buf_length s; device_name := device_name s;
     _ping_interval := _ping_interval s; _is_pingning := v;
     _num_of_resends := _num_of_resends s; _recv_stream := _recv_stream s;
     _send_stream := _send_stream s; _stop := _stop s; _lang := _lang s;
     socket := socket s; BluetoothAdapter := BluetoothAdapter s;
     events := events s; write_attempts := write_attempts s;
     reader_threads := reader_threads s; ping_schedule := ping_schedule s |}.

Definition with_streams (r w : option handle) (s : BTCommunicator) : BTCommunicator :=
  {| is_connected := is_connected s; unknown := unknown s; send_reset := send_reset s;
     reset_command := reset_command s; command_buffer := command_buffer s;
     c_buf_length := c_buf_length s; response_buffer := response_buffer s;
     r_buf_length := r_buf_length s; device_name := device_name s;
     _ping_interval := _ping_interval s; _is_pingning := _is_pingning s;
     _num_of_resends := _num_of_resends s; _recv_stream := r;
     _send_stream := w; _stop := _stop s; _lang := _lang s;
     socket := socket s; BluetoothAdapter := BluetoothAdapter s;
     events := events s; write_attempts := write_attempts s;
     reader_threads := reader_threads s; ping_schedule := ping_schedule s |}.

Definition with_stop (v : bool) (s : BTCommunicator) : BTCommunicator :=
  {| is_connected := is_connected s; unknown := unknown s; send_reset := send_reset s;
     reset_command := reset_command s; command_buffer := command_buffer s;
     c_buf_length := c_buf_length s; response_buffer := response_buffer s;
     r_buf_length := r_buf_length s; device_name := device_name s;
     _ping_interval := _ping_interval s; _is_pingning := _is_pingning s;
     _num_of_resends := _num_of_resends s; _recv_stream := _recv_stream s;
     _send_stream := _send_stream s; _stop := v; _lang := _lang s;
     socket := socket s; BluetoothAdapter := BluetoothAdapter s;
     events := events s; write_attempts := write_attempts s;
     reader_threads := reader_threads s; ping_schedule := ping_schedule s |}.

Definition with_socket (v : option handle) (s : BTCommunicator) : BTCommunicator :=
  {| is_connected := is_connected s; unknown := unknown s; send_reset := send_reset s;
     reset_command := reset_command s; command_buffer := command_buffer s;
     c_buf_length := c_buf_length s; response_buffer := response_buffer s;
     r_buf_length := r_buf_length s; device_name := device_name s;
     _ping_interval := _ping_interval s; _is_pingning := _is_pingning s;
     _num_of_resends := _num_of_resends s; _recv_stream := _recv_stream s;
     _send_stream := _send_stream s; _stop := _stop s; _lang := _lang s;
     socket := v; BluetoothAdapter := BluetoothAdapter s;
     events := events s; write_attempts := write_attempts s;
     reader_threads := reader_threads s; ping_schedule := ping_schedule s |}.

Definition with_events (v : list event) (s : BTCommunicator) : BTCommunicator :=
  {| is_connected := is_connected s; unknown := unknown s; send_reset := send_reset s;
     reset_command := reset_command s; command_buffer := command_buffer s;
     c_buf_length := c_buf_length s; response_buffer := response_buffer s;
     r_buf_length := r_buf_length s; device_name := device_name s;
     _ping_interval := _ping_interval s; _is_pingning := _is_pingning s;
     _num_of_resends := _num_of_resends s; _recv_stream := _recv_stream s;
     _send_stream := _send_stream s; _stop := _stop s; _lang := _lang s;
     socket := socket s; BluetoothAdapter := BluetoothAdapter s;
     events := v; write_attempts := write_attempts s;
     reader_threads := reader_threads s; ping_schedule := ping_schedule s |}.

Definition with_write_attempts (v : list string) (s : BTCommunicator) : BTCommunicator :=
  {| is_connected := is_connected s; unknown := unknown s; send_reset := send_reset s;
     reset_command := reset_command s; command_buffer := command_buffer s;
     c_buf_length := c_buf_length s; response_buffer := response_buffer s;
     r_buf_length := r_buf_length s; device_name := device_name s;
     _ping_interval := _ping_interval s; _is_pingning := _is_pingning s;
     _num_of_resends := _num_of_resends s; _recv_stream := _recv_stream s;
     _send_stream := _send_stream s; _stop := _stop s; _lang := _lang s;
     socket := socket s; BluetoothAdapter := BluetoothAdapter s;
     events := events s; write_attempts := v;
     reader_threads := reader_threads s; ping_schedule := ping_schedule s |}.

Definition with_reader_threads (v : nat) (s : BTCommunicator) : BTCommunicator :=
  {| is_connected := is_connected s; unknown := unknown s; send_reset := send_reset s;
     reset_command := reset_command s; command_buffer := command_buffer s;
     c_buf_length := c_buf_length s; response_buffer := response_buffer s;
     r_buf_length := r_buf_length s; device_name := device_name s;
     _ping_interval := _ping_interval s; _is_pingning := _is_pingning s;
     _num_of_resends := _num_of_resends s; _recv_stream := _recv_stream s;
     _send_stream := _send_stream s; _stop := _stop s; _lang := _lang s;
     socket := socket s; BluetoothAdapter := BluetoothAdapter s;
     events := events s; write_attempts := write_attempts s;
     reader_threads := v; ping_schedule := ping_schedule s |}.

Definition with_ping_schedule (v : list Z) (s : BTCommunicator) : BTCommunicator :=
  {| is_connected := is_connected s; unknown := unknown s; send_reset := send_reset s;
     reset_command := reset_command s; command_buffer := command_buffer s;
     c_buf_length := c_buf_length s; response_buffer := response_buffer s;
     r_buf_length := r_buf_length s; device_name := device_name s;
     _ping_interval := _ping_interval s; _is_pingning := _is_pingning s;
     _num_of_resends := _num_of_resends s; _recv_stream := _recv_stream s;
     _send_stream := _send_stream s; _stop := _stop s; _lang := _lang s;
     socket := socket s; BluetoothAdapter := BluetoothAdapter s;
     events := events s; write_attempts := write_attempts s;
     reader_threads := reader_threads s; ping_schedule := v |}.

(** [BTCommunicator(c_buf_length=c, r_buf_length=r)] *)
Definition with_capacities (c r : Z) (s : BTCommunicator) : BTCommunicator :=
  {| is_connected := is_connected s; unknown := unknown s; send_reset := send_reset s;
     reset_command := reset_command s; command_buffer := command_buffer s;
     c_buf_length := c; response_buffer := response_buffer s;
     r_buf_length := r; device_name := device_name s;
     _ping_interval := _ping_interval s; _is_pingning := _is_pingning s;
     _num_of_resends := _num_of_resends s; _recv_stream := _recv_stream s;
     _send_stream := _send_stream s; _stop := _stop s; _lang := _lang s;
     socket := socket s; BluetoothAdapter := BluetoothAdapter s;
     events := events s; write_attempts := write_attempts s;
     reader_threads := reader_threads s; ping_schedule := ping_schedule s |}.

(** ** The monad of methods

    A method takes the object and returns the object as the method left
    it, with either a value or the exception it raised. *)

Inductive result (A : Type) : Type :=
| Ok (a : A)
| Raise (e : exn).
Arguments Ok {A} a.
Arguments Raise {A} e.

Definition M (A : Type) : Type := BTCommunicator -> result A * BTCommunicator.

Definition ret {A} (a : A) : M A := fun s => (Ok a, s).

Definition bind {A B} (m : M A) (k : A -> M B) : M B :=
  fun s =>
    match m s with
    | (Ok a, s') => k a s'
    | (Raise e, s') => (Raise e, s')
    end.

Definition raise {A} (e : exn) : M A := fun s => (Raise e, s).

(** [try: body  except: handler] with a bare [except]. *)
Definition try_except {A} (body : M A) (handler : exn -> M A) : M A :=
  fun s =>
    match body s with
    | (Ok a, s') => (Ok a, s')
    | (Raise e, s') => handler e s'
    end.

Definition get : M BTCommunicator := fun s => (Ok s, s).

Definition modify (f : BTCommunicator -> BTCommunicator) : M unit :=
  fun s => (Ok tt, f s).

Declare Scope method_scope.
Delimit Scope method_scope with method.
Notation "x <- m ;; k" := (bind m (fun x => k))
  (at level 61, m at next level, right associativity) : method_scope.
Notation "m ;; k" := (bind m (fun _ => k))
  (at level 61, right associativity) : method_scope.
Open Scope method_scope.

(** ** Properties and events *)

(** [self.dispatch(e)]: the default handlers of the class are all [pass];
    the dispatch itself is what is recorded. *)
Definition dispatch (e : event) : M unit :=
  modify (fun s => with_events (events s ++ [e]) s).

(** The observer of the property [is_connected]. *)
Definition on_is_connected : M unit :=
  s <- get ;;
  if negb (is_connected s) then dispatch on_disconnected else ret tt.

(** [self.is_connected = v].  [is_connected] is a Kivy [BooleanProperty]:
    an assignment of the value already stored does nothing, any other
    assignment stores the value and then calls the observer. *)
Definition set_is_connected (v : bool) : M unit :=
  s <- get ;;
  if Bool.eqb (is_connected s) v then ret tt
  else modify (with_is_connected v) ;; on_is_connected.

(** ** Connecting *)

(** A bonded device as [_get_socket_stream] sees it: its name, the
    RFCOMM socket it creates with the two streams of that socket, and
    whether [socket.connect()] raises. *)
Record device : Type := {
  getName : string;
  createRfcommSocket : handle;
  getInputStream : handle;
  getOutputStream : handle;
  connect_raises : option string
}.

(** The [for device in paired_devices] loop. *)
Fixpoint search_paired (paired_devices : list device) (name : string) : M unit :=
  match paired_devices with
  | [] => ret tt
  | dev :: rest =>
      if String.eqb (getName dev) name then
        modify (with_socket (Some (createRfcommSocket dev))) ;;
        match connect_raises dev with
        | Some msg => raise (JavaException msg)
        | None =>
            modify (with_streams (Some (getInputStream dev)) (Some (getOutputStream dev)))
            (* break *)
        end
      else search_paired rest name
  end.

Definition _get_socket_stream (paired_devices : list device) (name : string) : M unit :=
  s <- get ;;
  if BluetoothAdapter s then
    modify (with_socket None) ;;
    search_paired paired_devices name ;;
    s' <- get ;;
    match socket s' with
    | Some _ => ret tt
    | None =>
        raise (BTCommunicatorException (Py.format2 (device_name_error (_lang s')) name))
    end
  else raise (BTCommunicatorException (not_android (_lang s))).

Definition connect (paired_devices : list device) : M unit :=
  s <- get ;;
  _get_socket_stream paired_devices (device_name s).

(** ** Reader thread and ping control *)

Definition stop_ping : M unit :=
  modify (with_ping_schedule []) ;;
  modify (with_is_pingning false).

Definition start_ping (interval : Z) : M unit :=
  s <- get ;;
  modify (with_ping_schedule
            (ping_schedule s ++ [if interval >? 0 then interval else _ping_interval s])) ;;
  modify (with_is_pingning true).

Definition stop_reader_stream : M unit :=
  s <- get ;;
  (if _is_pingning s then stop_ping ;; modify (with_is_pingning false) else ret tt) ;;
  modify (with_stop true).

Definition start_reader_stream : M unit :=
  modify (with_stop false) ;;
  modify (fun s => with_reader_threads (S (reader_threads s)) s).

(** ** Disconnecting *)

(** [stream.close()] on a property that may still hold [None]. *)
Definition close (close_raises : handle -> option string) (stream : option handle) : M unit :=
  match stream with
  | None => raise AttributeError
  | Some h =>
      match close_raises h with
      | Some msg => raise (JavaException msg)
      | None => ret tt
      end
  end.

Definition disconnect (close_raises : handle -> option string) : M unit :=
  try_except
    (stop_reader_stream ;;
     s <- get ;;
     close close_raises (_recv_stream s) ;;
     close close_raises (_send_stream s) ;;
     set_is_connected false)
    (fun _ =>
       s <- get ;;
       raise (BTCommunicatorException (disconnect_error (_lang s)))).

(** ** History buffers *)

Definition _add_command (command : string) : M unit :=
  s <- get ;;
  (if Z.of_nat (length (command_buffer s)) =? c_buf_length s then
     match Py.pop_last (command_buffer s) with
     | None => raise IndexError
     | Some b => modify (with_command_buffer b)
     end
   else ret tt) ;;
  s <- get ;;
  modify (with_command_buffer (Py.insert_first command (command_buffer s))).

(** [_add_response] is decorated with [@mainthread]: the reader thread
    only schedules the call and the body runs on the main thread. *)
Definition _add_response (response : string) : M unit :=
  s <- get ;;
  if String.eqb response (unknown s) then
    match Py.pop_first (command_buffer s) with
    | None => raise IndexError
    | Some b => modify (with_command_buffer b)
    end ;;
    dispatch on_unknown
  else
    (if Z.of_nat (length (response_buffer s)) =? r_buf_length s then
       match Py.pop_last (response_buffer s) with
       | None => raise IndexError
       | Some b => modify (with_response_buffer b)
       end
     else ret tt) ;;
    s <- get ;;
    modify (with_response_buffer (Py.insert_first response (response_buffer s))).

(** ** Sending *)

(** What one pass through [send_stream.write(line); send_stream.flush()]
    does: it completes, raises a [jnius.JavaException] with the given
    message, or raises anything else, of the given type.  [send] reads the
    attribute [send_stream] where [_get_socket_stream] assigns
    [_send_stream]; a failing attribute lookup is one of the exceptions of
    the last kind. *)
Inductive attempt : Type :=
| Written
| WriteJavaException (message : string)
| WriteOtherError (exc_type : string).

(** The transport answers the [k]-th pass ever made, counted from 0. *)
Definition transport := nat -> attempt.

Definition write_flush (tr : transport) (line : string) : M attempt :=
  s <- get ;;
  modify (with_write_attempts (write_attempts s ++ [line])) ;;
  ret (tr (length (write_attempts s))).

(** The [for i in range(1, resends)] loop, threading the locals [error]
    and [error_message]; [time.sleep] leaves no trace. *)
Fixpoint send_loop (tr : transport) (line : string) (iterations : list Z)
    (error : bool) (error_message : string) : M (bool * string) :=
  match iterations with
  | [] => ret (error, error_message)
  | _ :: rest =>
      a <- write_flush tr line ;;
      s <- get ;;
      match a with
      | Written => ret (false, error_message) (* break *)
      | WriteJavaException message =>
          send_loop tr line rest true
            (Py.format2 (send_error_JavaException (_lang s)) message)
      | WriteOtherError exc_type =>
          send_loop tr line rest true
            (Py.format2 (send_error_Unknown (_lang s)) exc_type)
      end
  end.

(** [resends = tries if tries > 0 else self._num_of_resends] *)
Definition resends_of (tries : Z) (s : BTCommunicator) : Z :=
  if tries >? 0 then tries else _num_of_resends s.

Definition send_string_of (command : string) (args : list string) : string :=
  if (0 <? length args)%nat then command ++ " " ++ Py.join " " args else command.

Definition send (tr : transport) (command : string) (args : list string) (tries : Z)
    : M unit :=
  s <- get ;;
  let send_string := send_string_of command args in
  let resends := resends_of tries s in
  r <- send_loop tr (send_string ++ String (ascii_of_nat 10) "")
         (Py.range 1 resends) false "" ;;
  if negb (fst r) then
    _add_command command ;;
    dispatch on_command_sent
  else
    set_is_connected false ;;
    raise (BTCommunicatorException (snd r)).

Definition _ping (tr : transport) : M unit := send tr "PING" [] 0.

(** ** The reader loop *)

(** What [self._recv_stream.readLine()] does: it returns a line or
    raises, in the three classes the loop tells apart. *)
Inductive read_result : Type :=
| Line (stream : string)
| ReadIOException (message : string)
| ReadJavaException (message : string)
| ReadOtherError (exc_type : string).

(** Lines 302-304: the argument handed to [_add_response], [None] for the
    [ValueError] that the loop swallows. *)
Definition decode (stream : string) : option string :=
  let s := list_ascii_of_string stream in
  match Py.rindex "<" s 0 with
  | None => None
  | Some i =>
      let start := (i + 1)%nat in
      match Py.rindex ">" s start with
      | None => None
      | Some end_ => Some (string_of_list_ascii (Py.slice s start end_))
      end
  end.

(** How a run of the loop ends: it saw the stop flag and returned, it is
    blocked in [readLine] (the script of reads is used up), it spins
    because [is_connected] is false, its thread died of an exception, or
    the scheduled [_add_response] raised on the main thread, where nothing
    of the class catches it. *)
Inductive reader_exit : Type :=
| Detached
| Blocked
| Spinning
| ThreadRaised (e : exn)
| CallbackRaised (e : exn).

Fixpoint _stream_reader (reads : list read_result) (s : BTCommunicator)
    : reader_exit * BTCommunicator :=
  if _stop s then (Detached, s)
  else if is_connected s then
    match reads with
    | [] => (Blocked, s)
    | Line stream :: rest =>
        match decode stream with
        | Some response =>
            match _add_response response s with
            | (Ok _, s') => _stream_reader rest s'
            | (Raise e, s') => (CallbackRaised e, s')
            end
        | None => _stream_reader rest s
        end
    | ReadIOException message :: _ =>
        (ThreadRaised (BTCommunicatorException
           (Py.format2 (receive_error_IOException (_lang s)) message)), s)
    | ReadJavaException message :: _ =>
        (ThreadRaised (BTCommunicatorException
           (Py.format2 (receive_error_JavaException (_lang s)) message)), s)
    | ReadOtherError exc_type :: _ =>
        (ThreadRaised (BTCommunicatorException
           (Py.format2 (receive_error_Unknown (_lang s)) exc_type)), s)
    end
  else (Spinning, s).

(** ** The session as a state machine *)

(** Everything that can happen to a session: a call of a public method by
    the application, an assignment by the application to the public
    property [is_connected] (no method of the class sets it to true), a
    firing of the ping timer, or the reader thread taking one result from
    [readLine]. *)
Inductive action : Type :=
| Connect (paired_devices : list device)
| Disconnect (close_raises : handle -> option string)
| StartReaderStream
| StopReaderStream
| StartPing (interval : Z)
| StopPing
| Send (tr : transport) (command : string) (args : list string) (tries : Z)
| PingTimer (tr : transport)
| Receive (rd : read_result)
| AssignIsConnected (v : bool).

Definition step (a : action) (s : BTCommunicator) : BTCommunicator :=
  match a with
  | Connect paired_devices => snd (connect paired_devices s)
  | Disconnect close_raises => snd (disconnect close_raises s)
  | StartReaderStream => snd (start_reader_stream s)
  | StopReaderStream => snd (stop_reader_stream s)
  | StartPing interval => snd (start_ping interval s)
  | StopPing => snd (stop_ping s)
  | Send tr command args tries => snd (send tr command args tries s)
  | PingTimer tr => snd (_ping tr s)
  | Receive rd => snd (_stream_reader [rd] s)
  | AssignIsConnected v => snd (set_is_connected v s)
  end.

(** A freshly constructed object with the default property values. *)
Definition default (lang : Lang) (android : bool) : BTCommunicator :=
  {| is_connected := false; unknown := "UNSUPPORTED COMMAND"; send_reset := true;
     reset_command := "RESET"; command_buffer := []; c_buf_length := 10;
     response_buffer := []; r_buf_length := 10; device_name := "HC-06";
     _ping_interval := 10; _is_pingning := false; _num_of_resends := 3;
     _recv_stream := None; _send_stream := None; _stop := false; _lang := lang;
     socket := None; BluetoothAdapter := android; events := [];
     write_attempts := []; reader_threads := 0; ping_schedule := [] |}.

Definition sample_lang : Lang :=
  {| disconnect_error := "disconnect failed";
     send_error_JavaException := "send failed (java):";
     send_error_Unknown := "send failed:";
     receive_error_IOException := "receive failed (io):";
     receive_error_JavaException := "receive failed (java):";
     receive_error_Unknown := "receive failed:";
     device_name_error := "no paired device named";
     not_android := "only on android" |}.

(** Counting the [on_disconnected] notifications of a trace. *)
Definition count_event (e : event) (l : list event) : nat :=
  length (filter (event_eqb e) l).

(** ** Notions the statements below are phrased with *)

(** A transport on which no pass through write and flush completes. *)
Definition always_fails (tr : transport) : Prop := forall k, tr k <> Written.

(** [msg] is the error text [send] builds for the failed pass [a]. *)
Definition describes (lang : Lang) (a : attempt) (msg : string) : Prop :=
  match a with
  | Written => False
  | WriteJavaException message =>
      msg = Py.format2 (send_error_JavaException lang) message
  | WriteOtherError exc_type =>
      msg = Py.format2 (send_error_Unknown lang) exc_type
  end.

(** The line [send] writes for a command and its arguments. *)
Definition line_of (command : string) (args : list string) : string :=
  send_string_of command args ++ String (ascii_of_nat 10) "".

(** The error text of the exception the reader thread raises for a failed
    read; [None] for a line. *)
Definition receive_error (lang : Lang) (rd : read_result) : option string :=
  match rd with
  | Line _ => None
  | ReadIOException message =>
      Some (Py.format2 (receive_error_IOException lang) message)
  | ReadJavaException message =>
      Some (Py.format2 (receive_error_JavaException lang) message)
  | ReadOtherError exc_type =>
      Some (Py.format2 (receive_error_Unknown lang) exc_type)
  end.

(** Whether [stream.close()] returns normally. *)
Definition closes (close_raises : handle -> option string) (stream : option handle)
    : bool :=
  match stream with
  | None => false
  | Some h => match close_raises h with None => true | Some _ => false end
  end.

(** The character [c] occurs in [t]. *)
Definition occurs (c : ascii) (t : string) : Prop :=
  In c (list_ascii_of_string t).

(** The decoding the specification describes: between the last start
    delimiter and the nearest end delimiter after it. *)
Definition decode_nearest_end (stream : string) : option string :=
  let s := list_ascii_of_string stream in
  match Py.rindex "<" s 0 with
  | None => None
  | Some i =>
      let start := (i + 1)%nat in
      match Py.index ">" s start with
      | None => None
      | Some end_ => Some (string_of_list_ascii (Py.slice s start end_))
      end
  end.

(** Both histories are within their configured capacity. *)
Definition within_capacity (s : BTCommunicator) : Prop :=
  Z.of_nat (length (command_buffer s)) <= c_buf_length s /\
  Z.of_nat (length (response_buffer s)) <= r_buf_length s.

(** The states a session gets into from [s0]. *)
Inductive reachable (s0 : BTCommunicator) : BTCommunicator -> Prop :=
| reachable_start : reachable s0 s0
| reachable_step a s : reachable s0 s -> reachable s0 (step a s).

(** A sequence of pushes into the command history, oldest push first. *)
Definition push_commands (items : list string) (s : BTCommunicator) : BTCommunicator :=
  fold_left (fun s item => snd (_add_command item s)) items s.

(** A sequence of pushes into the response history, oldest push first. *)
Definition push_responses (items : list string) (s : BTCommunicator) : BTCommunicator :=
  fold_left (fun s item => snd (_add_response item s)) items s.

(** What the main-thread callback can change: the two histories and the
    events, of which only [on_unknown] can be added. *)
Definition callback_kept (s s' : BTCommunicator) : Prop :=
  is_connected s' = is_connected s /\
  _stop s' = _stop s /\
  c_buf_length s' = c_buf_length s /\
  r_buf_length s' = r_buf_length s /\
  (forall e, e <> on_unknown -> count_event e (events s') = count_event e (events s)) /\
  (within_capacity s -> within_capacity s').

(** The ping flag tells whether a ping is scheduled on the clock. *)
Definition pinging_consistent (s : BTCommunicator) : Prop :=
  _is_pingning s = match ping_schedule s with [] => false | _ :: _ => true end.

(** The frame the peripheral puts around a payload. *)
Definition framed (payload : string) : string := "<" ++ payload ++ ">".

(** The first [k] passes that the transport answers from pass [n] on fail,
    and the next one completes. *)
Definition first_success (tr : transport) (n k : nat) : Prop :=
  (forall j, (j < k)%nat -> tr (n + j)%nat <> Written) /\ tr (n + k)%nat = Written.

(** The parts of the object that tie it to its collaborators: the stop
    flag and the count of reader threads, the ping timer, the socket and
    the two streams. *)
Definition same_wiring (s s' : BTCommunicator) : Prop :=
  _stop s' = _stop s /\
  reader_threads s' = reader_threads s /\
  _is_pingning s' = _is_pingning s /\
  ping_schedule s' = ping_schedule s /\
  socket s' = socket s /\
  _recv_stream s' = _recv_stream s /\
  _send_stream s' = _send_stream s.

(** * Properties *)

(** Unfolding the monad, and projecting out of updated records. *)
Ltac run :=
  cbv beta iota delta
    [bind ret get modify raise try_except dispatch write_flush fst snd].

Ltac fields :=
  cbn [is_connected unknown send_reset reset_command command_buffer c_buf_length
       response_buffer r_buf_length device_name _ping_interval _is_pingning
       _num_of_resends _recv_stream _send_stream _stop _lang socket
       BluetoothAdapter events write_attempts reader_threads ping_schedule
       with_is_connected with_command_buffer with_response_buffer
       with_is_pingning with_streams with_stop with_socket with_events
       with_write_attempts with_reader_threads with_ping_schedule] in *.

(** ** Sending *)

Lemma range_1_3 : Py.range 1 3 = [1; 2].
Proof. reflexivity. Qed.

Lemma range_1_1 : Py.range 1 1 = [].
Proof. reflexivity. Qed.

Lemma resends_of_positive tries s : 0 < tries -> resends_of tries s = tries.
Proof.
  intros H. unfold resends_of.
  destruct (Z.gtb_spec tries 0); [reflexivity | lia].
Qed.

Lemma resends_of_default tries s : tries <= 0 -> resends_of tries s = _num_of_resends s.
Proof.
  intros H. unfold resends_of.
  destruct (Z.gtb_spec tries 0); [lia | reflexivity].
Qed.

(** The retry loop never raises and touches nothing but the record of
    write attempts. *)
Lemma send_loop_run tr line iterations :
  forall error error_message s,
    exists e m w,
      send_loop tr line iterations error error_message s
        = (Ok (e, m), with_write_attempts w s).
Proof.
  induction iterations as [|i rest IH]; intros error error_message s.
  - exists error, error_message, (write_attempts s). destruct s; reflexivity.
  - cbn [send_loop]. run.
    destruct (tr (length (write_attempts s))).
    + do 3 eexists. reflexivity.
    + edestruct IH as (e & m & w & Hw). exists e, m, w. rewrite Hw. reflexivity.
    + edestruct IH as (e & m & w & Hw). exists e, m, w. rewrite Hw. reflexivity.
Qed.

(** C1. With [tries=3] and a transport on which every write fails, [send]
    makes exactly two write attempts (the loop runs over [range(1, 3)]),
    raises a [BTCommunicatorException] whose text is built from the
    failure of the last attempt, and leaves [is_connected] false. *)
Theorem send_three_tries_all_fail
    (tr : transport) (command : string) (args : list string) (s : BTCommunicator)
    (Hfail : always_fails tr) :
  exists msg s',
    send tr command args 3 s = (Raise (BTCommunicatorException msg), s') /\
    describes (_lang s) (tr (S (length (write_attempts s)))) msg /\
    write_attempts s'
      = (write_attempts s ++ [line_of command args; line_of command args])%list /\
    is_connected s' = false.
Proof.
  pose proof (Hfail (length (write_attempts s))) as H0.
  pose proof (Hfail (S (length (write_attempts s)))) as H1.
  unfold send. run. cbv zeta.
  change (resends_of 3 s) with 3. rewrite range_1_3.
  fold (line_of command args).
  cbn [send_loop]. run. fields.
  destruct (tr (length (write_attempts s))); [contradiction | |];
    run; fields; rewrite length_app, Nat.add_1_r; cbn [length];
    destruct (tr (S (length (write_attempts s)))); try contradiction;
    run; fields; cbn [negb]; unfold set_is_connected, on_is_connected; run; fields;
    destruct (is_connected s) eqn:Hconn; cbn [Bool.eqb negb]; run; fields;
    rewrite <- app_assoc; cbn [app];
    eexists; eexists; repeat split; fields; assumption || reflexivity.
Qed.

Lemma send_three_tries_all_fail_witness :
  exists msg s',
    send (fun _ => WriteJavaException "EIO") "PING" [] 3
         (with_is_connected true (default sample_lang true))
      = (Raise (BTCommunicatorException msg), s') /\
    is_connected s' = false.
Proof.
  destruct (send_three_tries_all_fail (fun _ => WriteJavaException "EIO") "PING" []
              (with_is_connected true (default sample_lang true)))
    as (msg & s' & Hrun & _ & _ & Hoff).
  - intros k. discriminate.
  - exists msg, s'. split; assumption.
Defined.

(** ** History buffers *)

Lemma with_command_buffer_same s : with_command_buffer (command_buffer s) s = s.
Proof. destruct s; reflexivity. Qed.

Lemma with_response_buffer_same s : with_response_buffer (response_buffer s) s = s.
Proof. destruct s; reflexivity. Qed.

Section PushFront.
Context {A : Type}.
Implicit Types (l m : list A) (x : A) (n : nat).

(** Evicting the tail of a full buffer and inserting at the head keeps
    the first [n] items of the extended buffer. *)
Lemma push_front_full l x n :
  length l = S n -> x :: removelast l = firstn (S n) (x :: l).
Proof.
  intros H. rewrite firstn_cons, removelast_firstn_len, H. reflexivity.
Qed.

Lemma push_front_room l x n :
  (length l < n)%nat -> x :: l = firstn n (x :: l).
Proof.
  intros H. symmetry. apply firstn_all2. cbn [length]. lia.
Qed.

Lemma firstn_app_firstn l m n :
  firstn n (l ++ firstn n m) = firstn n (l ++ m).
Proof.
  rewrite !firstn_app, firstn_firstn.
  replace (Nat.min (n - length l) n) with (n - length l)%nat by lia.
  reflexivity.
Qed.

Lemma firstn_app_long l m n :
  (n <= length l)%nat -> firstn n (l ++ m) = firstn n l.
Proof.
  intros H. rewrite firstn_app.
  replace (n - length l)%nat with 0%nat by lia.
  cbn [firstn]. apply app_nil_r.
Qed.
End PushFront.

(** One push into the command history of capacity [n]. *)
Lemma _add_command_spec (n : nat) command s :
  c_buf_length s = Z.of_nat n ->
  (length (command_buffer s) <= n)%nat ->
  snd (_add_command command s)
    = with_command_buffer (firstn n (command :: command_buffer s)) s.
Proof.
  intros Hcap Hlen. unfold _add_command. run.
  destruct (Z.eqb_spec (Z.of_nat (length (command_buffer s))) (c_buf_length s)) as [E|E].
  - assert (length (command_buffer s) = n) as Hn by lia.
    destruct (command_buffer s) as [|c b] eqn:Hb; cbn [Py.pop_last]; run; fields.
    + cbn [length] in Hn. subst n. cbn [firstn].
      rewrite <- Hb. symmetry. apply with_command_buffer_same.
    + unfold Py.insert_first. cbn [length] in Hn.
      rewrite <- Hn, <- (push_front_full (c :: b) command (length b)) by reflexivity.
      reflexivity.
  - run; fields. unfold Py.insert_first.
    rewrite <- (push_front_room (command_buffer s) command n) by lia.
    reflexivity.
Qed.

(** A push into a history of positive capacity does not raise. *)
Lemma _add_command_ok command s :
  0 < c_buf_length s ->
  _add_command command s
    = (Ok tt,
       with_command_buffer
         (command ::
            (if Z.of_nat (length (command_buffer s)) =? c_buf_length s
             then removelast (command_buffer s) else command_buffer s)) s).
Proof.
  intros Hcap. unfold _add_command. run.
  destruct (Z.eqb_spec (Z.of_nat (length (command_buffer s))) (c_buf_length s)) as [E|E].
  - destruct (command_buffer s) as [|c b] eqn:Hb; cbn [Py.pop_last]; run; fields.
    + cbn [length] in E. lia.
    + reflexivity.
  - run; fields. reflexivity.
Qed.

(** One push into the response history of capacity [n]. *)
Lemma _add_response_spec (n : nat) response s :
  response <> unknown s ->
  r_buf_length s = Z.of_nat n ->
  (length (response_buffer s) <= n)%nat ->
  snd (_add_response response s)
    = with_response_buffer (firstn n (response :: response_buffer s)) s.
Proof.
  intros Hne Hcap Hlen. unfold _add_response. run.
  destruct (String.eqb_spec response (unknown s)) as [|_]; [contradiction|].
  destruct (Z.eqb_spec (Z.of_nat (length (response_buffer s))) (r_buf_length s)) as [E|E].
  - assert (length (response_buffer s) = n) as Hn by lia.
    destruct (response_buffer s) as [|c b] eqn:Hb; cbn [Py.pop_last]; run; fields.
    + cbn [length] in Hn. subst n. cbn [firstn].
      rewrite <- Hb. symmetry. apply with_response_buffer_same.
    + unfold Py.insert_first. cbn [length] in Hn.
      rewrite <- Hn, <- (push_front_full (c :: b) response (length b)) by reflexivity.
      reflexivity.
  - run; fields. unfold Py.insert_first.
    rewrite <- (push_front_room (response_buffer s) response n) by lia.
    reflexivity.
Qed.

Lemma push_commands_spec (n : nat) items :
  forall s,
    c_buf_length s = Z.of_nat n ->
    (length (command_buffer s) <= n)%nat ->
    push_commands items s
      = with_command_buffer (firstn n (rev items ++ command_buffer s)) s.
Proof.
  induction items as [|x rest IH]; intros s Hcap Hlen.
  - cbn. rewrite firstn_all2 by assumption. symmetry. apply with_command_buffer_same.
  - cbn [push_commands fold_left]. fold (push_commands rest).
    rewrite (_add_command_spec n) by assumption.
    rewrite IH; fields; [| assumption | apply firstn_le_length].
    rewrite firstn_app_firstn. cbn [rev]. rewrite <- app_assoc. reflexivity.
Qed.

Lemma push_responses_spec (n : nat) items :
  forall s,
    Forall (fun r => r <> unknown s) items ->
    r_buf_length s = Z.of_nat n ->
    (length (response_buffer s) <= n)%nat ->
    push_responses items s
      = with_response_buffer (firstn n (rev items ++ response_buffer s)) s.
Proof.
  induction items as [|x rest IH]; intros s Hne Hcap Hlen.
  - cbn. rewrite firstn_all2 by assumption. symmetry. apply with_response_buffer_same.
  - cbn [push_responses fold_left]. fold (push_responses rest).
    inversion Hne as [|? ? Hx Hrest]; subst.
    rewrite (_add_response_spec n) by assumption.
    rewrite IH; fields; [| assumption | assumption | apply firstn_le_length].
    rewrite firstn_app_firstn. cbn [rev]. rewrite <- app_assoc. reflexivity.
Qed.

(** C10. With an effective retry count of 1 the loop runs over
    [range(1, 1)], which is empty: [send] makes no write attempt, and still
    puts the command at the head of the command history and dispatches
    [on_command_sent]. *)
Theorem send_single_try_writes_nothing
    (tr : transport) (command : string) (args : list string) (tries : Z)
    (s : BTCommunicator)
    (Hone : tries = 1 \/ (tries <= 0 /\ _num_of_resends s = 1))
    (Hcap : 0 < c_buf_length s) :
  exists s',
    send tr command args tries s = (Ok tt, s') /\
    write_attempts s' = write_attempts s /\
    command_buffer s'
      = command ::
          (if Z.of_nat (length (command_buffer s)) =? c_buf_length s
           then removelast (command_buffer s) else command_buffer s) /\
    events s' = (events s ++ [on_command_sent])%list /\
    is_connected s' = is_connected s.
Proof.
  assert (resends_of tries s = 1) as Hre.
  { destruct Hone as [->|[Hle Hnum]].
    - reflexivity.
    - rewrite resends_of_default by assumption. assumption. }
  unfold send. run. cbv zeta. rewrite Hre, range_1_1.
  cbn [send_loop]. run. cbn [negb].
  rewrite _add_command_ok by assumption.
  eexists. split; [reflexivity|]. fields. repeat split.
Qed.

Lemma send_single_try_writes_nothing_witness :
  exists s',
    send (fun _ => WriteOtherError "never asked") "PING" [] 1
         (default sample_lang true) = (Ok tt, s') /\
    write_attempts s' = [] /\
    command_buffer s' = ["PING"] /\
    events s' = [on_command_sent].
Proof.
  destruct (send_single_try_writes_nothing (fun _ => WriteOtherError "never asked")
              "PING" [] 1 (default sample_lang true))
    as (s' & Hrun & Hw & Hb & He & _).
  - left. reflexivity.
  - reflexivity.
  - exists s'. repeat split; assumption.
Defined.

(** ** The unsupported-command sentinel *)

(** C3 (as amended). On a non-empty command history the sentinel removes
    the entry at the head, which is the most recently sent command, and
    dispatches exactly one [on_unknown]; the response history is not
    touched. *)
Theorem sentinel_removes_most_recent
    (s : BTCommunicator) (c : string) (rest : list string)
    (Hbuf : command_buffer s = c :: rest) :
  exists s',
    _add_response (unknown s) s = (Ok tt, s') /\
    command_buffer s' = rest /\
    events s' = (events s ++ [on_unknown])%list /\
    response_buffer s' = response_buffer s.
Proof.
  unfold _add_response. run. rewrite String.eqb_refl, Hbuf.
  cbn [Py.pop_first]. run. fields.
  eexists. split; [reflexivity|]. fields. repeat split.
Qed.

Lemma sentinel_removes_most_recent_witness :
  exists s',
    _add_response "UNSUPPORTED COMMAND"
      (with_command_buffer ["CMD_A"; "CMD_B"] (default sample_lang true))
      = (Ok tt, s') /\
    command_buffer s' = ["CMD_B"] /\
    events s' = [on_unknown].
Proof.
  destruct (sentinel_removes_most_recent
              (with_command_buffer ["CMD_A"; "CMD_B"] (default sample_lang true))
              "CMD_A" ["CMD_B"])
    as (s' & Hrun & Hb & He & _).
  - reflexivity.
  - exists s'. repeat split; assumption.
Defined.

(** C3 as the specification words it fails: with the history
    [["CMD_A"; "CMD_B"]] the sentinel leaves [["CMD_B"]], not the history
    without its oldest entry. *)
Lemma sentinel_keeps_oldest_entry :
  let s := with_command_buffer ["CMD_A"; "CMD_B"] (default sample_lang true) in
  command_buffer (snd (_add_response (unknown s) s)) = ["CMD_B"] /\
  command_buffer (snd (_add_response (unknown s) s)) <> removelast (command_buffer s).
Proof.
  split; [reflexivity | discriminate].
Qed.

(** C9. The sentinel on an empty command history: [pop(0)] raises
    [IndexError], nothing catches it, and [on_unknown] is not dispatched. *)
Theorem sentinel_on_empty_history_raises (s : BTCommunicator) :
  _add_response (unknown s) (with_command_buffer [] s)
    = (Raise IndexError, with_command_buffer [] s).
Proof.
  unfold _add_response. run. fields. rewrite String.eqb_refl. reflexivity.
Qed.

(** The reader loop hands the exception on: a sentinel line read while the
    history is empty ends the run with the callback's [IndexError]. *)
Lemma reader_sentinel_on_empty_history :
  _stream_reader [Line "<UNSUPPORTED COMMAND>"]
    (with_is_connected true (default sample_lang true))
  = (CallbackRaised IndexError, with_is_connected true (default sample_lang true)).
Proof. reflexivity. Qed.

(** ** Connecting *)

Lemma with_streams_socket_same s :
  with_streams (_recv_stream s) (_send_stream s) (with_socket (socket s) s) = s.
Proof. destruct s; reflexivity. Qed.

(** The search over the bonded devices writes the socket and the two
    streams, and nothing else. *)
Lemma search_paired_frame paired_devices name :
  forall s,
    exists r so rs ws,
      search_paired paired_devices name s
        = (r, with_streams rs ws (with_socket so s)).
Proof.
  induction paired_devices as [|dev rest IH]; intros s.
  - exists (Ok tt), (socket s), (_recv_stream s), (_send_stream s).
    cbn [search_paired]. run. rewrite with_streams_socket_same. reflexivity.
  - cbn [search_paired]. destruct (String.eqb (getName dev) name).
    + run. destruct (connect_raises dev) as [msg|]; run.
      * exists (Raise (JavaException msg)), (Some (createRfcommSocket dev)),
          (_recv_stream s), (_send_stream s).
        destruct s; reflexivity.
      * do 4 eexists. reflexivity.
    + apply IH.
Qed.

Lemma connect_frame paired_devices s :
  exists r so rs ws,
    connect paired_devices s = (r, with_streams rs ws (with_socket so s)).
Proof.
  unfold connect, _get_socket_stream. run.
  destruct (BluetoothAdapter s).
  - run.
    destruct (search_paired_frame paired_devices (device_name s) (with_socket None s))
      as (r & so & rs & ws & Hrun).
    rewrite Hrun. fields. destruct r as [[]|e]; run; fields.
    + destruct so; run; do 4 eexists; reflexivity.
    + do 4 eexists; reflexivity.
  - run. exists (Raise (BTCommunicatorException (not_android (_lang s)))),
      (socket s), (_recv_stream s), (_send_stream s).
    rewrite with_streams_socket_same. reflexivity.
Qed.

(** C4. What [connect] does to the session, whether it succeeds or not:
    [is_connected] keeps its value, no event is dispatched (so no
    [on_connected]), no reader thread is started and nothing is written
    (so no reset command is sent). *)
Theorem connect_leaves_session_untouched
    (paired_devices : list device) (s : BTCommunicator) :
  let s' := snd (connect paired_devices s) in
  is_connected s' = is_connected s /\
  events s' = events s /\
  reader_threads s' = reader_threads s /\
  write_attempts s' = write_attempts s.
Proof.
  destruct (connect_frame paired_devices s) as (r & so & rs & ws & Hrun).
  rewrite Hrun. cbn [snd]. fields. repeat split.
Qed.

(** A bonded HC-06 whose socket connects: [connect] returns normally with
    the two streams stored, and the session is as disconnected and as
    silent as before, although [send_reset] is on. *)
Example connect_to_paired_device :
  let hc06 := {| getName := "HC-06"; createRfcommSocket := 1%nat;
                 getInputStream := 2%nat; getOutputStream := 3%nat;
                 connect_raises := None |} in
  let s := default sample_lang true in
  let s' := snd (connect [hc06] s) in
  fst (connect [hc06] s) = Ok tt /\
  _recv_stream s' = Some 2%nat /\ _send_stream s' = Some 3%nat /\
  send_reset s' = true /\
  is_connected s' = false /\ events s' = [] /\
  reader_threads s' = 0%nat /\ write_attempts s' = [].
Proof. repeat split. Qed.

(** Without a bonded device of the configured name, [connect] on Android
    raises the device-name error. *)
Lemma connect_device_not_found paired_devices s :
  BluetoothAdapter s = true ->
  Forall (fun dev => getName dev <> device_name s) paired_devices ->
  fst (connect paired_devices s)
    = Raise (BTCommunicatorException
               (Py.format2 (device_name_error (_lang s)) (device_name s))).
Proof.
  intros Handroid Hnone. unfold connect, _get_socket_stream. run.
  rewrite Handroid. run.
  assert (search_paired paired_devices (device_name s) (with_socket None s)
          = (Ok tt, with_socket None s)) as Hsearch.
  { induction Hnone as [|dev rest Hdev _ IH]; [reflexivity|].
    cbn [search_paired].
    destruct (String.eqb_spec (getName dev) (device_name s)); [contradiction|].
    exact IH. }
  rewrite Hsearch. fields. reflexivity.
Qed.

(** ** Disconnecting *)

Lemma set_is_connected_false s :
  set_is_connected false s
    = (Ok tt,
       if is_connected s
       then with_events (events s ++ [on_disconnected]) (with_is_connected false s)
       else s).
Proof.
  unfold set_is_connected, on_is_connected. run.
  destruct (is_connected s); cbn [Bool.eqb]; run; fields; reflexivity.
Qed.

Lemma set_is_connected_true s :
  set_is_connected true s
    = (Ok tt, if is_connected s then s else with_is_connected true s).
Proof.
  unfold set_is_connected, on_is_connected. run.
  destruct (is_connected s); cbn [Bool.eqb]; run; fields; reflexivity.
Qed.

Lemma stop_reader_stream_frame s :
  exists sched,
    stop_reader_stream s
      = (Ok tt, with_stop true (with_is_pingning false (with_ping_schedule sched s))).
Proof.
  unfold stop_reader_stream, stop_ping. run.
  destruct (_is_pingning s) eqn:Hping; run; fields.
  - exists []. reflexivity.
  - exists (ping_schedule s). destruct s; cbn in Hping; subst; reflexivity.
Qed.

(** The state [disconnect] leaves, case by case. *)
Lemma disconnect_run close_raises s :
  exists sched,
    let s1 := with_stop true (with_is_pingning false (with_ping_schedule sched s)) in
    disconnect close_raises s
      = if closes close_raises (_recv_stream s) && closes close_raises (_send_stream s)
        then (Ok tt,
              if is_connected s
              then with_events (events s ++ [on_disconnected])
                     (with_is_connected false s1)
              else s1)
        else (Raise (BTCommunicatorException (disconnect_error (_lang s))), s1).
Proof.
  destruct (stop_reader_stream_frame s) as [sched Hstop]. exists sched.
  unfold disconnect. run. rewrite Hstop.
  run. fields. unfold close, closes.
  destruct (_recv_stream s) as [hr|]; [destruct (close_raises hr) |];
    run; fields; try reflexivity.
  destruct (_send_stream s) as [hs|]; [destruct (close_raises hs) |];
    run; fields; try reflexivity.
  rewrite set_is_connected_false. fields. reflexivity.
Qed.

(** C6 (as amended). [disconnect] always sets the stop flag and stops the
    ping.  When both streams close it returns normally with [is_connected]
    false; when a close fails it raises the [BTCommunicatorException] of
    the disconnect error, and [is_connected] and the events are as they
    were before the call. *)
Theorem disconnect_outcome
    (close_raises : handle -> option string) (s : BTCommunicator) :
  let r := fst (disconnect close_raises s) in
  let s' := snd (disconnect close_raises s) in
  _stop s' = true /\ _is_pingning s' = false /\
  if closes close_raises (_recv_stream s) && closes close_raises (_send_stream s)
  then r = Ok tt /\ is_connected s' = false
  else r = Raise (BTCommunicatorException (disconnect_error (_lang s))) /\
       is_connected s' = is_connected s /\ events s' = events s.
Proof.
  destruct (disconnect_run close_raises s) as [sched Hrun].
  cbv zeta in *. rewrite Hrun.
  destruct (closes close_raises (_recv_stream s) && closes close_raises (_send_stream s));
    cbn [fst snd]; [destruct (is_connected s) eqn:Hconn |]; fields;
    repeat split; assumption.
Qed.

(** C6 as the specification words it fails: a connected session whose
    input stream fails to close is still connected after [disconnect]. *)
Lemma disconnect_close_failure_stays_connected :
  let s := with_streams (Some 1%nat) (Some 2%nat)
             (with_is_connected true (default sample_lang true)) in
  let close_raises := fun h : handle =>
    if (h =? 1)%nat then Some "socket closed" else None in
  fst (disconnect close_raises s)
    = Raise (BTCommunicatorException "disconnect failed") /\
  is_connected (snd (disconnect close_raises s)) = true /\
  is_connected (snd (disconnect close_raises s)) <> false.
Proof. repeat split. discriminate. Qed.

(** ** The reader loop *)

(** C7 (as amended). A failed [readLine] ends the loop with a
    [BTCommunicatorException] carrying the receive error in the reader
    thread, whatever reads would follow; the session is left exactly as it
    was, so [is_connected] is still true and no [on_error] (or any other
    event) has been dispatched. *)
Theorem read_failure_ends_reader_only
    (s : BTCommunicator) (rd : read_result) (rest : list read_result) (msg : string)
    (Hrun : _stop s = false) (Hconn : is_connected s = true)
    (Hfail : receive_error (_lang s) rd = Some msg) :
  _stream_reader (rd :: rest) s = (ThreadRaised (BTCommunicatorException msg), s) /\
  is_connected (snd (_stream_reader (rd :: rest) s)) = true /\
  events (snd (_stream_reader (rd :: rest) s)) = events s.
Proof.
  assert (_stream_reader (rd :: rest) s
          = (ThreadRaised (BTCommunicatorException msg), s)) as H.
  { cbn [_stream_reader]. rewrite Hrun, Hconn.
    destruct rd; cbn [receive_error] in Hfail; inversion Hfail; reflexivity. }
  rewrite H. cbn [snd]. repeat split. assumption.
Qed.

Lemma read_failure_ends_reader_only_witness :
  let s := with_is_connected true (default sample_lang true) in
  _stream_reader [ReadIOException "reset by peer"; Line "<OK>"] s
    = (ThreadRaised (BTCommunicatorException "receive failed (io): reset by peer"), s).
Proof.
  cbv zeta.
  apply (read_failure_ends_reader_only
           (with_is_connected true (default sample_lang true))
           (ReadIOException "reset by peer") [Line "<OK>"]
           "receive failed (io): reset by peer");
    reflexivity.
Defined.

(** C7 as the specification words it fails: after a failed read the
    session is still connected and no [on_error] has been dispatched. *)
Lemma read_failure_not_reported_not_disconnected :
  let s := with_is_connected true (default sample_lang true) in
  let s' := snd (_stream_reader [ReadIOException "reset by peer"] s) in
  is_connected s' = true /\ is_connected s' <> false /\
  count_event on_error (events s') = 0%nat.
Proof. repeat split. discriminate. Qed.

(** ** Notifications of a lost connection *)

Lemma count_event_snoc e l e' :
  count_event e (l ++ [e'])
    = (count_event e l + if event_eqb e e' then 1 else 0)%nat.
Proof.
  unfold count_event. rewrite filter_app, length_app. cbn [filter].
  destruct (event_eqb e e'); reflexivity.
Qed.

Lemma length_removelast {A} (l : list A) :
  length (removelast l) = pred (length l).
Proof. rewrite removelast_firstn_len, length_firstn. lia. Qed.

(** A push into the command history changes that history only, and keeps
    it within a capacity it was within. *)
Lemma _add_command_frame command s :
  exists r b,
    _add_command command s = (r, with_command_buffer b s) /\
    (Z.of_nat (length (command_buffer s)) <= c_buf_length s ->
     Z.of_nat (length b) <= c_buf_length s).
Proof.
  unfold _add_command. run.
  destruct (Z.eqb_spec (Z.of_nat (length (command_buffer s))) (c_buf_length s)) as [E|E].
  - destruct (command_buffer s) as [|c b] eqn:Hb; cbn [Py.pop_last]; run; fields.
    + exists (Raise IndexError), []. split; [| intros; assumption].
      rewrite <- Hb, with_command_buffer_same. reflexivity.
    + do 2 eexists. split; [reflexivity|]. intros _.
      unfold Py.insert_first. cbn [length]. rewrite length_removelast.
      cbn [length] in E |- *. lia.
  - run; fields. do 2 eexists. split; [reflexivity|]. intros H.
    unfold Py.insert_first. cbn [length]. lia.
Qed.

Lemma callback_kept_refl s : callback_kept s s.
Proof.
  unfold callback_kept. do 4 (split; [reflexivity|]).
  split; [intros e _; reflexivity | intros H; exact H].
Qed.

Lemma callback_kept_trans s1 s2 s3 :
  callback_kept s1 s2 -> callback_kept s2 s3 -> callback_kept s1 s3.
Proof.
  unfold callback_kept.
  intros (A1 & A2 & A3 & A4 & A5 & A6) (B1 & B2 & B3 & B4 & B5 & B6).
  repeat split; try congruence.
  - intros e He. rewrite B5, A5 by assumption. reflexivity.
  - apply B6, A6; assumption.
  - apply B6, A6; assumption.
Qed.

Lemma _add_response_kept response s :
  callback_kept s (snd (_add_response response s)).
Proof.
  unfold _add_response. run.
  destruct (String.eqb response (unknown s)).
  - destruct (command_buffer s) as [|c b] eqn:Hb; cbn [Py.pop_first]; run; fields.
    + apply callback_kept_refl.
    + unfold callback_kept, within_capacity. fields. repeat split; try tauto.
      * intros e He. rewrite count_event_snoc.
        destruct e; cbn [event_eqb]; try lia. contradiction.
      * rewrite Hb in *. cbn [length] in *. lia.
  - destruct (Z.eqb_spec (Z.of_nat (length (response_buffer s))) (r_buf_length s)) as [E|E].
    + destruct (response_buffer s) as [|c b] eqn:Hb; cbn [Py.pop_last]; run; fields.
      * apply callback_kept_refl.
      * unfold callback_kept, within_capacity. fields. repeat split; try tauto.
        unfold Py.insert_first. cbn [length]. rewrite length_removelast.
        rewrite Hb in *. cbn [length] in *. lia.
    + run; fields. unfold callback_kept, within_capacity. fields.
      repeat split; try tauto.
      unfold Py.insert_first. cbn [length]. lia.
Qed.

(** A run of the reader loop changes no more than its callbacks do. *)
Lemma _stream_reader_kept reads :
  forall s, callback_kept s (snd (_stream_reader reads s)).
Proof.
  induction reads as [|rd rest IH]; intros s; cbn [_stream_reader].
  - destruct (_stop s), (is_connected s); apply callback_kept_refl.
  - destruct (_stop s); [apply callback_kept_refl|].
    destruct (is_connected s); [| apply callback_kept_refl].
    destruct rd; try apply callback_kept_refl.
    destruct (decode stream) as [response|]; [| apply IH].
    pose proof (_add_response_kept response s) as Hcb.
    destruct (_add_response response s) as [[[]|e] s']; cbn [snd] in *.
    + eapply callback_kept_trans; [exact Hcb | apply IH].
    + exact Hcb.
Qed.

(** What [send] leaves of the histories and of their capacities. *)
Lemma send_within_capacity tr command args tries s :
  within_capacity s -> within_capacity (snd (send tr command args tries s)).
Proof.
  intros [Hc Hr]. unfold send. run. cbv zeta.
  edestruct send_loop_run as (e & m & w & Hloop). rewrite Hloop. clear Hloop.
  run. destruct e; cbn [negb].
  - rewrite set_is_connected_false. fields.
    destruct (is_connected s); unfold within_capacity; fields; split; assumption.
  - destruct (_add_command_frame command (with_write_attempts w s))
      as (r & b & Hadd & Hlen). rewrite Hadd. fields.
    destruct r as [[]|x]; unfold within_capacity; fields; split; auto.
Qed.

(** [send] dispatches [on_disconnected] once if it takes the session from
    connected to disconnected, and not at all otherwise. *)
Lemma send_disconnected_count tr command args tries s :
  let s' := snd (send tr command args tries s) in
  count_event on_disconnected (events s')
    = (count_event on_disconnected (events s)
       + if is_connected s && negb (is_connected s') then 1 else 0)%nat.
Proof.
  unfold send. run. cbv zeta.
  edestruct send_loop_run as (e & m & w & Hloop). rewrite Hloop. clear Hloop.
  run. destruct e; cbn [negb].
  - rewrite set_is_connected_false. fields.
    destruct (is_connected s); fields; cbn [andb negb].
    + apply count_event_snoc.
    + lia.
  - destruct (_add_command_frame command (with_write_attempts w s))
      as (r & b & Hadd & _). rewrite Hadd. fields.
    destruct r as [[]|x]; fields; rewrite andb_negb_r.
    + rewrite count_event_snoc. reflexivity.
    + lia.
Qed.

(** C8. Whatever happens to the session (a method call, a ping, a read,
    failed or not), the number of [on_disconnected] notifications grows by
    exactly one if the step takes [is_connected] from true to false, and by
    nothing otherwise. *)
Theorem on_disconnected_once_per_transition (a : action) (s : BTCommunicator) :
  count_event on_disconnected (events (step a s))
    = (count_event on_disconnected (events s)
       + if is_connected s && negb (is_connected (step a s)) then 1 else 0)%nat.
Proof.
  destruct a; cbn [step].
  - destruct (connect_frame paired_devices s) as (r & so & rs & ws & Hrun).
    rewrite Hrun. cbn [snd]. fields. rewrite andb_negb_r. lia.
  - destruct (disconnect_run close_raises s) as [sched Hrun].
    cbv zeta in Hrun. rewrite Hrun.
    destruct (closes close_raises (_recv_stream s)
              && closes close_raises (_send_stream s)); cbn [snd].
    + destruct (is_connected s) eqn:Hconn; fields; cbn [andb negb].
      * apply count_event_snoc.
      * lia.
    + fields. rewrite andb_negb_r. lia.
  - unfold start_reader_stream. run. fields. rewrite andb_negb_r. lia.
  - destruct (stop_reader_stream_frame s) as [sched Hrun]. rewrite Hrun.
    cbn [snd]. fields. rewrite andb_negb_r. lia.
  - unfold start_ping. run. fields. rewrite andb_negb_r. lia.
  - unfold stop_ping. run. fields. rewrite andb_negb_r. lia.
  - apply send_disconnected_count.
  - apply send_disconnected_count.
  - destruct (_stream_reader_kept [rd] s) as (Hconn & _ & _ & _ & Hev & _).
    rewrite Hconn, andb_negb_r, Hev by discriminate. lia.
  - destruct v.
    + rewrite set_is_connected_true. cbn [snd].
      destruct (is_connected s) eqn:Hconn; fields; [rewrite Hconn |]; cbn [andb negb]; lia.
    + rewrite set_is_connected_false. cbn [snd].
      destruct (is_connected s) eqn:Hconn; fields; [| rewrite Hconn]; cbn [andb negb].
      * apply count_event_snoc.
      * lia.
Qed.

(** ** Capacity of the histories *)

Lemma step_within_capacity a s :
  within_capacity s -> within_capacity (step a s).
Proof.
  intros Hfit. destruct a; cbn [step].
  - destruct (connect_frame paired_devices s) as (r & so & rs & ws & Hrun).
    rewrite Hrun. exact Hfit.
  - destruct (disconnect_run close_raises s) as [sched Hrun].
    cbv zeta in Hrun. rewrite Hrun.
    destruct (closes close_raises (_recv_stream s)
              && closes close_raises (_send_stream s)); cbn [snd];
      [destruct (is_connected s) |]; exact Hfit.
  - exact Hfit.
  - destruct (stop_reader_stream_frame s) as [sched Hrun]. rewrite Hrun. exact Hfit.
  - exact Hfit.
  - exact Hfit.
  - apply send_within_capacity, Hfit.
  - apply send_within_capacity, Hfit.
  - apply (_stream_reader_kept [rd] s), Hfit.
  - destruct v; [rewrite set_is_connected_true | rewrite set_is_connected_false];
      cbn [snd]; destruct (is_connected s); exact Hfit.
Qed.

Lemma reachable_within_capacity s s' :
  within_capacity s -> reachable s s' -> within_capacity s'.
Proof.
  intros Hfit Hreach. induction Hreach as [|a s' _ IH].
  - exact Hfit.
  - apply step_within_capacity, IH.
Qed.

(** A new session is within its capacities, if they are not negative. *)
Lemma new_session_within_capacity lang android c r :
  0 <= c -> 0 <= r -> within_capacity (with_capacities c r (default lang android)).
Proof. intros Hc Hr. split; cbn; assumption. Qed.

(** C5. From a session whose histories are within their capacities
    (a new session, for one, whatever the capacities): pushing more items
    than its capacity into a history leaves exactly as many of the most
    recently pushed items as the capacity, most recent first; and whatever
    happens to the session, both histories stay within their capacities. *)
Theorem histories_keep_most_recent
    (s : BTCommunicator) (items : list string)
    (Hfit : within_capacity s) :
  (c_buf_length s < Z.of_nat (length items) ->
   command_buffer (push_commands items s)
     = firstn (Z.to_nat (c_buf_length s)) (rev items)) /\
  (r_buf_length s < Z.of_nat (length items) ->
   Forall (fun r => r <> unknown s) items ->
   response_buffer (push_responses items s)
     = firstn (Z.to_nat (r_buf_length s)) (rev items)) /\
  (forall s', reachable s s' -> within_capacity s').
Proof.
  destruct Hfit as [Hc Hr]. repeat split.
  - intros Hmore.
    rewrite (push_commands_spec (Z.to_nat (c_buf_length s))) by lia.
    fields. apply firstn_app_long. rewrite length_rev. lia.
  - intros Hmore Hne.
    rewrite (push_responses_spec (Z.to_nat (r_buf_length s))) by (assumption || lia).
    fields. apply firstn_app_long. rewrite length_rev. lia.
  - eapply reachable_within_capacity; [split | ]; eassumption.
  - eapply reachable_within_capacity; [split | ]; eassumption.
Qed.

Lemma histories_keep_most_recent_witness :
  let s := with_capacities 2 2 (default sample_lang true) in
  command_buffer (push_commands ["A"; "B"; "C"] s) = ["C"; "B"] /\
  response_buffer (push_responses ["A"; "B"; "C"] s) = ["C"; "B"] /\
  within_capacity (step (Send (fun _ => Written) "D" [] 0) s).
Proof.
  cbv zeta.
  destruct (histories_keep_most_recent
              (with_capacities 2 2 (default sample_lang true)) ["A"; "B"; "C"])
    as (Hc & Hr & Hreach).
  - split; cbn; lia.
  - split; [| split].
    + apply Hc. cbn. lia.
    + apply Hr; [cbn; lia |]. repeat constructor; discriminate.
    + apply Hreach. apply reachable_step, reachable_start.
Defined.

(** ** Decoding a line *)

Section Rindex.
Variable c : ascii.
Local Open Scope list_scope.
Implicit Types (s p post pre rest : list ascii) (start i j : nat).

Lemma rindex_from_absent s start i :
  ~ In c s -> Py.rindex_from c s start i = None.
Proof.
  revert i. induction s as [|x s IH]; intros i Hnot; cbn [Py.rindex_from].
  - reflexivity.
  - rewrite IH by (intros H; apply Hnot; right; exact H).
    destruct (Ascii.eqb_spec x c) as [->|_].
    + exfalso. apply Hnot. left. reflexivity.
    + rewrite andb_false_r. reflexivity.
Qed.

(** The last occurrence is the one found. *)
Lemma rindex_from_last p post start i :
  ~ In c post -> (start <= i)%nat ->
  Py.rindex_from c (p ++ c :: post) start i = Some (i + length p)%nat.
Proof.
  intros Hnot. revert i.
  induction p as [|x p IH]; intros i Hle; cbn [app Py.rindex_from length].
  - rewrite rindex_from_absent by assumption.
    rewrite Ascii.eqb_refl, andb_true_r.
    destruct (Nat.leb_spec start i); [| lia].
    rewrite Nat.add_0_r. reflexivity.
  - rewrite IH by lia. f_equal. lia.
Qed.

Lemma rindex_from_None s start i :
  Py.rindex_from c s start i = None -> (start <= i)%nat -> ~ In c s.
Proof.
  revert i. induction s as [|x s IH]; intros i Hnone Hle; cbn [Py.rindex_from] in Hnone.
  - intros [].
  - destruct (Py.rindex_from c s start (S i)) eqn:Hrest; [discriminate|].
    destruct (Nat.leb_spec start i); [| lia]. cbn [andb] in Hnone.
    destruct (Ascii.eqb_spec x c) as [|Hne]; [discriminate|].
    intros [Hx|Hin]; [contradiction|].
    exact (IH (S i) Hrest ltac:(lia) Hin).
Qed.

Lemma rindex_from_Some s start i j :
  Py.rindex_from c s start i = Some j -> (start <= i)%nat ->
  exists p post, s = p ++ c :: post /\ j = (i + length p)%nat /\ ~ In c post.
Proof.
  revert i. induction s as [|x s IH]; intros i Hsome Hle; cbn [Py.rindex_from] in Hsome.
  - discriminate.
  - destruct (Py.rindex_from c s start (S i)) as [k|] eqn:Hrest.
    + inversion Hsome; subst k.
      destruct (IH (S i) Hrest ltac:(lia)) as (p & post & -> & -> & Hnot).
      exists (x :: p), post. cbn [app length]. repeat split; [lia | exact Hnot].
    + destruct (Nat.leb_spec start i); [| lia]. cbn [andb] in Hsome.
      destruct (Ascii.eqb_spec x c) as [->|]; [| discriminate].
      inversion Hsome; subst j.
      exists [], s. cbn [app length]. repeat split; [lia |].
      exact (rindex_from_None s start (S i) Hrest ltac:(lia)).
Qed.

(** Characters before [start] play no part. *)
Lemma rindex_from_skip pre rest i :
  Py.rindex_from c (pre ++ rest) (i + length pre) i
    = Py.rindex_from c rest (i + length pre) (i + length pre).
Proof.
  revert i. induction pre as [|x pre IH]; intros i; cbn [app length Py.rindex_from].
  - rewrite Nat.add_0_r. reflexivity.
  - replace (i + S (length pre))%nat with (S i + length pre)%nat by lia.
    rewrite IH.
    destruct (Py.rindex_from c rest (S i + length pre) (S i + length pre));
      [reflexivity|].
    destruct (Nat.leb_spec (S i + length pre) i); [lia | reflexivity].
Qed.
End Rindex.

Lemma list_ascii_of_string_app (a b : string) :
  list_ascii_of_string (a ++ b)
    = (list_ascii_of_string a ++ list_ascii_of_string b)%list.
Proof.
  induction a as [|x a IH]; cbn; [reflexivity | rewrite IH; reflexivity].
Qed.

Lemma string_of_list_ascii_app (a b : list ascii) :
  string_of_list_ascii (a ++ b)
    = (string_of_list_ascii a ++ string_of_list_ascii b)%string.
Proof.
  induction a as [|x a IH]; cbn; [reflexivity | rewrite IH; reflexivity].
Qed.

Lemma slice_middle {A} (pre p post : list A) :
  Py.slice (pre ++ p ++ post)%list (length pre) (length pre + length p) = p.
Proof.
  unfold Py.slice. rewrite skipn_app, skipn_all, Nat.sub_diag. cbn [app skipn].
  replace (length pre + length p - length pre)%nat with (length p) by lia.
  rewrite firstn_app, firstn_all, Nat.sub_diag. cbn [firstn]. apply app_nil_r.
Qed.

(** [decode] on the characters of the line. *)
Lemma decode_chars_Some (s p : list ascii) :
  decode (string_of_list_ascii s) = Some (string_of_list_ascii p) <->
  exists pre post,
    s = (pre ++ "<"%char :: p ++ ">"%char :: post)%list /\
    ~ In "<"%char p /\ ~ In "<"%char post /\ ~ In ">"%char post.
Proof.
  unfold decode. rewrite list_ascii_of_string_of_list_ascii. cbv zeta. split.
  - unfold Py.rindex.
    destruct (Py.rindex_from "<" s 0 0) as [i|] eqn:Hstart; [| discriminate].
    destruct (rindex_from_Some _ _ _ _ _ Hstart ltac:(lia))
      as (pre & rest & -> & -> & Hlast).
    cbn [Nat.add].
    replace (pre ++ "<"%char :: rest)%list with ((pre ++ ["<"%char]) ++ rest)%list
      by (rewrite <- app_assoc; reflexivity).
    replace (length pre + 1)%nat with (0 + length (pre ++ ["<"%char]))%nat
      by (rewrite length_app; cbn; lia).
    rewrite rindex_from_skip.
    destruct (Py.rindex_from ">" rest _ _) as [e|] eqn:Hend; [| discriminate].
    destruct (rindex_from_Some _ _ _ _ _ Hend ltac:(lia))
      as (q & post & -> & -> & Hnone).
    cbn [Nat.add].
    rewrite (slice_middle (pre ++ ["<"%char]) q (">"%char :: post)).
    intros Heq.
    assert (q = p) as ->.
    { injection Heq as Heq.
      apply (f_equal list_ascii_of_string) in Heq.
      rewrite !list_ascii_of_string_of_list_ascii in Heq. exact Heq. }
    exists pre, post. rewrite <- app_assoc. cbn [app].
    repeat split; try assumption.
    + intros H. apply Hlast. apply in_or_app. left. exact H.
    + intros H. apply Hlast. apply in_or_app. right. right. exact H.
  - intros (pre & post & -> & Hp & Hpost & Hend).
    unfold Py.rindex.
    rewrite (rindex_from_last "<" pre (p ++ ">"%char :: post) 0 0); [| | lia].
    2:{ intros H. apply in_app_or in H. destruct H as [H|[H|H]];
          [contradiction | discriminate | contradiction]. }
    cbn [Nat.add].
    replace (pre ++ "<"%char :: p ++ ">"%char :: post)%list
      with ((pre ++ ["<"%char]) ++ p ++ ">"%char :: post)%list
      by (rewrite <- app_assoc; reflexivity).
    replace (length pre + 1)%nat with (0 + length (pre ++ ["<"%char]))%nat
      by (rewrite length_app; cbn; lia).
    rewrite rindex_from_skip.
    rewrite (rindex_from_last ">" p post) by (assumption || lia).
    cbn [Nat.add].
    rewrite (slice_middle (pre ++ ["<"%char]) p (">"%char :: post)).
    reflexivity.
Qed.

Lemma decode_chars_None (s : list ascii) :
  decode (string_of_list_ascii s) = None <->
  forall pre rest,
    s = (pre ++ "<"%char :: rest)%list ->
    ~ In "<"%char rest -> ~ In ">"%char rest.
Proof.
  unfold decode. rewrite list_ascii_of_string_of_list_ascii. cbv zeta.
  unfold Py.rindex. split.
  - intros Hnone pre rest -> Hlast.
    rewrite (rindex_from_last "<" pre rest 0 0) in Hnone by (assumption || lia).
    cbn [Nat.add] in Hnone.
    replace (pre ++ "<"%char :: rest)%list with ((pre ++ ["<"%char]) ++ rest)%list
      in Hnone by (rewrite <- app_assoc; reflexivity).
    replace (length pre + 1)%nat with (0 + length (pre ++ ["<"%char]))%nat
      in Hnone by (rewrite length_app; cbn; lia).
    rewrite rindex_from_skip in Hnone.
    destruct (Py.rindex_from ">" rest _ _) eqn:Hend; [discriminate|].
    exact (rindex_from_None _ _ _ _ Hend ltac:(lia)).
  - intros Hall.
    destruct (Py.rindex_from "<" s 0 0) as [i|] eqn:Hstart; [| reflexivity].
    destruct (rindex_from_Some _ _ _ _ _ Hstart ltac:(lia))
      as (pre & rest & -> & -> & Hlast).
    cbn [Nat.add].
    replace (pre ++ "<"%char :: rest)%list with ((pre ++ ["<"%char]) ++ rest)%list
      by (rewrite <- app_assoc; reflexivity).
    replace (length pre + 1)%nat with (0 + length (pre ++ ["<"%char]))%nat
      by (rewrite length_app; cbn; lia).
    rewrite rindex_from_skip.
    rewrite rindex_from_absent; [reflexivity|].
    exact (Hall pre rest eq_refl Hlast).
Qed.

(** C2 (as amended). With the default delimiters ["<"] and [">"],
    [decode] yields a payload exactly when the line splits around its last
    start delimiter and its last end delimiter, the second after the first,
    and the payload is what lies strictly between the two; it yields none
    exactly when no end delimiter follows the last start delimiter (or
    there is no start delimiter); and the line
    ["noise<ignored<ACK1>trailing"] yields ["ACK1"]. *)
Theorem decode_last_start_last_end (stream payload : string) :
  (decode stream = Some payload <->
   exists pre post,
     stream = pre ++ "<" ++ payload ++ ">" ++ post /\
     ~ occurs "<" payload /\ ~ occurs "<" post /\ ~ occurs ">" post) /\
  (decode stream = None <->
   forall pre rest,
     stream = pre ++ "<" ++ rest -> ~ occurs "<" rest -> ~ occurs ">" rest) /\
  decode "noise<ignored<ACK1>trailing" = Some "ACK1".
Proof.
  split; [| split; [| reflexivity]].
  - rewrite <- (string_of_list_ascii_of_string stream) at 1.
    rewrite <- (string_of_list_ascii_of_string payload) at 1.
    rewrite decode_chars_Some. unfold occurs. split.
    + intros (pre & post & Hs & Hp & Hpost & Hend).
      exists (string_of_list_ascii pre), (string_of_list_ascii post).
      rewrite !list_ascii_of_string_of_list_ascii. repeat split; try assumption.
      rewrite <- (string_of_list_ascii_of_string stream), Hs.
      rewrite string_of_list_ascii_app. cbn [string_of_list_ascii].
      rewrite string_of_list_ascii_app. cbn [string_of_list_ascii].
      rewrite string_of_list_ascii_of_string. reflexivity.
    + intros (pre & post & -> & Hp & Hpost & Hend).
      exists (list_ascii_of_string pre), (list_ascii_of_string post).
      repeat split; try assumption.
      rewrite list_ascii_of_string_app. cbn [append list_ascii_of_string].
      rewrite list_ascii_of_string_app. reflexivity.
  - rewrite <- (string_of_list_ascii_of_string stream) at 1.
    rewrite decode_chars_None. unfold occurs. split.
    + intros Hall pre rest -> Hlast.
      apply (Hall (list_ascii_of_string pre) (list_ascii_of_string rest));
        [| exact Hlast].
      rewrite list_ascii_of_string_app. reflexivity.
    + intros Hall pre rest Hs Hlast.
      specialize (Hall (string_of_list_ascii pre) (string_of_list_ascii rest)).
      rewrite !list_ascii_of_string_of_list_ascii in Hall.
      apply Hall; [| exact Hlast].
      rewrite <- (string_of_list_ascii_of_string stream), Hs.
      rewrite string_of_list_ascii_app. reflexivity.
Qed.

(** C2 as the specification words it fails: where a second [">"] follows,
    [decode] runs up to the last one, not to the nearest. *)
Lemma decode_takes_last_end_not_nearest :
  decode "<a>b>" = Some "a>b" /\
  decode_nearest_end "<a>b>" = Some "a" /\
  decode "<a>b>" <> decode_nearest_end "<a>b>".
Proof. repeat split. discriminate. Qed.


(** * Further properties of the methods *)

(** ** The retry loop of [send] *)

Lemma length_range a b : length (Py.range a b) = Z.to_nat (b - a).
Proof. unfold Py.range. rewrite length_map, length_seq. reflexivity. Qed.

Lemma with_write_attempts_same s : with_write_attempts (write_attempts s) s = s.
Proof. destruct s; reflexivity. Qed.

Lemma repeat_snoc {A} (x : A) (l : list A) (k : nat) :
  ((l ++ [x]) ++ repeat x k = l ++ repeat x (S k))%list.
Proof. rewrite <- app_assoc. reflexivity. Qed.

(** [send] is its loop followed by the bookkeeping of the outcome. *)
Lemma send_after_loop tr command args tries s e m s1 :
  send_loop tr (line_of command args) (Py.range 1 (resends_of tries s)) false "" s
    = (Ok (e, m), s1) ->
  send tr command args tries s
    = if e
      then (Raise (BTCommunicatorException m), snd (set_is_connected false s1))
      else (_add_command command ;; dispatch on_command_sent) s1.
Proof.
  intros Hloop. unfold send. run. cbv zeta.
  fold (line_of command args). rewrite Hloop. run.
  destruct e; cbn [negb].
  - rewrite set_is_connected_false. reflexivity.
  - reflexivity.
Qed.

(** On a transport that always fails the loop uses up its iterations. *)
Lemma send_loop_all_fail tr line (Hfail : always_fails tr) iterations :
  forall error error_message s,
    exists m,
      send_loop tr line iterations error error_message s
        = (Ok (match iterations with [] => error | _ :: _ => true end, m),
           with_write_attempts
             (write_attempts s ++ repeat line (length iterations)) s) /\
      match iterations with
      | [] => m = error_message
      | _ :: _ =>
          describes (_lang s)
            (tr (length (write_attempts s) + length iterations - 1)%nat) m
      end.
Proof.
  induction iterations as [|i rest IH]; intros error error_message s.
  - exists error_message. cbn [send_loop repeat length]. run.
    rewrite app_nil_r, with_write_attempts_same. split; reflexivity.
  - cbn [send_loop]. run. fields.
    pose proof (Hfail (length (write_attempts s))) as Hhere.
    destruct (tr (length (write_attempts s))) as [|message|exc_type] eqn:Hans;
      [contradiction | |].
    + edestruct (IH true
        (Py.format2 (send_error_JavaException (_lang s)) message)
        (with_write_attempts (write_attempts s ++ [line]) s)) as (m & Hrun & Hm).
      fields. exists m. split.
      * rewrite Hrun. fields. rewrite repeat_snoc.
        destruct rest; reflexivity.
      * destruct rest as [|i' rest'].
        -- subst m. cbn [length].
           replace (length (write_attempts s) + 1 - 1)%nat
             with (length (write_attempts s)) by lia.
           rewrite Hans. reflexivity.
        -- rewrite length_app in Hm. cbn [length] in Hm |- *.
           replace (length (write_attempts s) + S (S (length rest')) - 1)%nat
             with (length (write_attempts s) + 1 + S (length rest') - 1)%nat by lia.
           exact Hm.
    + edestruct (IH true
        (Py.format2 (send_error_Unknown (_lang s)) exc_type)
        (with_write_attempts (write_attempts s ++ [line]) s)) as (m & Hrun & Hm).
      fields. exists m. split.
      * rewrite Hrun. fields. rewrite repeat_snoc.
        destruct rest; reflexivity.
      * destruct rest as [|i' rest'].
        -- subst m. cbn [length].
           replace (length (write_attempts s) + 1 - 1)%nat
             with (length (write_attempts s)) by lia.
           rewrite Hans. reflexivity.
        -- rewrite length_app in Hm. cbn [length] in Hm |- *.
           replace (length (write_attempts s) + S (S (length rest')) - 1)%nat
             with (length (write_attempts s) + 1 + S (length rest') - 1)%nat by lia.
           exact Hm.
Qed.

(** The loop stops at the first pass that completes. *)
Lemma send_loop_first_success tr line k :
  forall iterations error error_message s,
    (k < length iterations)%nat ->
    first_success tr (length (write_attempts s)) k ->
    exists m,
      send_loop tr line iterations error error_message s
        = (Ok (false, m),
           with_write_attempts (write_attempts s ++ repeat line (S k)) s).
Proof.
  induction k as [|k IH]; intros iterations error error_message s Hlen [Hbefore Hthen];
    destruct iterations as [|i rest]; cbn [length] in Hlen; try lia;
    cbn [send_loop]; run; fields.
  - rewrite Nat.add_0_r in Hthen. rewrite Hthen. run.
    exists error_message. reflexivity.
  - pose proof (Hbefore 0%nat ltac:(lia)) as Hhere. rewrite Nat.add_0_r in Hhere.
    assert (first_success tr
              (length (write_attempts
                         (with_write_attempts (write_attempts s ++ [line]) s))) k)
      as Hnext.
    { fields. rewrite length_app. cbn [length]. split.
      - intros j Hj. specialize (Hbefore (S j) ltac:(lia)).
        replace (length (write_attempts s) + 1 + j)%nat
          with (length (write_attempts s) + S j)%nat by lia.
        exact Hbefore.
      - replace (length (write_attempts s) + 1 + k)%nat
          with (length (write_attempts s) + S k)%nat by lia.
        exact Hthen. }
    destruct (tr (length (write_attempts s))) as [|message|exc_type];
      [contradiction | |];
      edestruct (IH rest) as (m & Hrun); try exact Hnext; try lia;
      rewrite Hrun; fields; rewrite repeat_snoc; exists m; reflexivity.
Qed.

(** The loop writes the same line each time, at most once per iteration. *)
Lemma send_loop_bounded tr line iterations :
  forall error error_message s,
    exists e m k,
      (k <= length iterations)%nat /\
      send_loop tr line iterations error error_message s
        = (Ok (e, m), with_write_attempts (write_attempts s ++ repeat line k) s).
Proof.
  induction iterations as [|i rest IH]; intros error error_message s.
  - exists error, error_message, 0%nat. split; [lia|].
    cbn [send_loop repeat]. run. rewrite app_nil_r, with_write_attempts_same.
    reflexivity.
  - cbn [send_loop]. run. fields.
    destruct (tr (length (write_attempts s))) as [|message|exc_type].
    + run. exists false, error_message, 1%nat. split; [cbn; lia | reflexivity].
    + edestruct IH as (e & m & k & Hk & Hrun). rewrite Hrun. fields.
      exists e, m, (S k). split; [cbn [length]; lia|].
      rewrite repeat_snoc. reflexivity.
    + edestruct IH as (e & m & k & Hk & Hrun). rewrite Hrun. fields.
      exists e, m, (S k). split; [cbn [length]; lia|].
      rewrite repeat_snoc. reflexivity.
Qed.

(** X1. With an effective retry count [r >= 2] and a transport on which
    every write fails, [send] makes exactly [r - 1] write attempts, all of
    the same line, raises with the text of the last failure, leaves
    [is_connected] false and the command history as it was, and dispatches
    nothing but the [on_disconnected] of a session that was connected. *)
Theorem send_exhausts_retries
    (tr : transport) (command : string) (args : list string) (tries : Z)
    (s : BTCommunicator)
    (Hfail : always_fails tr) (Hmany : 2 <= resends_of tries s) :
  exists msg s',
    send tr command args tries s = (Raise (BTCommunicatorException msg), s') /\
    describes (_lang s)
      (tr (length (write_attempts s) + Z.to_nat (resends_of tries s - 1) - 1)%nat)
      msg /\
    write_attempts s'
      = (write_attempts s
         ++ repeat (line_of command args) (Z.to_nat (resends_of tries s - 1)))%list /\
    is_connected s' = false /\
    command_buffer s' = command_buffer s /\
    events s' = (events s ++ if is_connected s then [on_disconnected] else [])%list.
Proof.
  destruct (send_loop_all_fail tr (line_of command args) Hfail
              (Py.range 1 (resends_of tries s)) false "" s) as (m & Hrun & Hm).
  rewrite length_range in Hrun, Hm.
  assert (exists i rest, Py.range 1 (resends_of tries s) = i :: rest)
    as (i & rest & Hrange).
  { pose proof (length_range 1 (resends_of tries s)) as Hlen.
    destruct (Py.range 1 (resends_of tries s)) as [|i rest].
    - cbn [length] in Hlen. lia.
    - exists i, rest. reflexivity. }
  rewrite Hrange in Hrun, Hm.
  rewrite <- Hrange in Hrun at 1.
  rewrite (send_after_loop _ _ _ _ _ _ _ _ Hrun).
  rewrite set_is_connected_false. cbn [snd]. fields.
  exists m. eexists. split; [reflexivity|]. split; [exact Hm|].
  destruct (is_connected s) eqn:Hconn; fields; repeat split;
    try assumption; rewrite ?app_nil_r; reflexivity.
Qed.

Lemma send_exhausts_retries_witness :
  exists msg s',
    send (fun _ => WriteOtherError "BrokenPipe") "PING" [] 5
         (with_is_connected true (default sample_lang true))
      = (Raise (BTCommunicatorException msg), s') /\
    length (write_attempts s') = 4%nat /\
    events s' = [on_disconnected].
Proof.
  destruct (send_exhausts_retries (fun _ => WriteOtherError "BrokenPipe") "PING" [] 5
              (with_is_connected true (default sample_lang true)))
    as (msg & s' & Hrun & _ & Hw & _ & _ & He).
  - intros k. discriminate.
  - cbn. lia.
  - exists msg, s'. split; [exact Hrun|]. rewrite Hw, He. split; reflexivity.
Defined.

(** X2. If the first [k] write attempts fail and the next one succeeds,
    with [k + 1] no more than the [r - 1] attempts the loop allows, [send]
    stops there: it has written the line [k + 1] times, returns normally,
    records the command and dispatches [on_command_sent], and the earlier
    failures leave no mark on [is_connected]. *)
Theorem send_stops_at_first_success
    (tr : transport) (command : string) (args : list string) (tries : Z)
    (s : BTCommunicator) (k : nat)
    (Hfirst : first_success tr (length (write_attempts s)) k)
    (Hroom : Z.of_nat k + 1 <= resends_of tries s - 1)
    (Hcap : 0 < c_buf_length s) :
  exists s',
    send tr command args tries s = (Ok tt, s') /\
    write_attempts s'
      = (write_attempts s ++ repeat (line_of command args) (S k))%list /\
    hd_error (command_buffer s') = Some command /\
    events s' = (events s ++ [on_command_sent])%list /\
    is_connected s' = is_connected s.
Proof.
  destruct (send_loop_first_success tr (line_of command args) k
              (Py.range 1 (resends_of tries s)) false "" s) as (m & Hrun).
  { rewrite length_range. lia. }
  { exact Hfirst. }
  rewrite (send_after_loop _ _ _ _ _ _ _ _ Hrun).
  run. rewrite _add_command_ok by (fields; assumption). fields.
  eexists. split; [reflexivity|]. fields. repeat split.
Qed.

Lemma send_stops_at_first_success_witness :
  exists s',
    send (fun n => if (n <? 2)%nat then WriteJavaException "busy" else Written)
         "MOVE" ["10"; "20"] 4 (default sample_lang true) = (Ok tt, s') /\
    length (write_attempts s') = 3%nat /\
    events s' = [on_command_sent].
Proof.
  destruct (send_stops_at_first_success
              (fun n => if (n <? 2)%nat then WriteJavaException "busy" else Written)
              "MOVE" ["10"; "20"] 4 (default sample_lang true) 2)
    as (s' & Hrun & Hw & _ & He & _).
  - split.
    + intros j Hj. cbn [default write_attempts length Nat.add].
      destruct (Nat.ltb_spec j 2); [discriminate | lia].
    + reflexivity.
  - cbn. lia.
  - reflexivity.
  - exists s'. split; [exact Hrun|]. rewrite Hw, He. split; reflexivity.
Defined.

(** X3. Whatever the transport answers, [send] writes one and the same
    line, at most [r - 1] times for an effective retry count [r], and
    nothing at all when [r <= 1]. *)
Theorem send_attempts_bounded
    (tr : transport) (command : string) (args : list string) (tries : Z)
    (s : BTCommunicator) :
  exists k,
    (k <= Z.to_nat (resends_of tries s - 1))%nat /\
    write_attempts (snd (send tr command args tries s))
      = (write_attempts s ++ repeat (line_of command args) k)%list.
Proof.
  destruct (send_loop_bounded tr (line_of command args)
              (Py.range 1 (resends_of tries s)) false "" s)
    as (e & m & k & Hk & Hrun).
  rewrite length_range in Hk. exists k. split; [exact Hk|].
  rewrite (send_after_loop _ _ _ _ _ _ _ _ Hrun). destruct e.
  - rewrite set_is_connected_false. cbn [snd]. fields.
    destruct (is_connected s); fields; reflexivity.
  - run.
    destruct (_add_command_frame command
                (with_write_attempts
                   (write_attempts s ++ repeat (line_of command args) k) s))
      as (r & b & Hadd & _).
    rewrite Hadd. destruct r as [[]|x]; fields; reflexivity.
Qed.

(** X4. With a command history of capacity 0, a [send] whose write goes
    through still fails: the line is written, then [_add_command] raises
    [IndexError] out of [send], [on_command_sent] is not dispatched and the
    history stays empty. *)
Theorem send_with_zero_capacity_raises
    (tr : transport) (command : string) (args : list string) (tries : Z)
    (s : BTCommunicator)
    (Hzero : c_buf_length s = 0) (Hempty : command_buffer s = [])
    (Hwritten : tr (length (write_attempts s)) = Written)
    (Hmany : 2 <= resends_of tries s) :
  exists s',
    send tr command args tries s = (Raise IndexError, s') /\
    write_attempts s' = (write_attempts s ++ [line_of command args])%list /\
    command_buffer s' = [] /\
    events s' = events s /\
    is_connected s' = is_connected s.
Proof.
  destruct (send_loop_first_success tr (line_of command args) 0
              (Py.range 1 (resends_of tries s)) false "" s) as (m & Hrun).
  { rewrite length_range. lia. }
  { split; [intros j Hj; lia | rewrite Nat.add_0_r; exact Hwritten]. }
  rewrite (send_after_loop _ _ _ _ _ _ _ _ Hrun).
  unfold _add_command. run. fields. rewrite Hempty, Hzero.
  cbn [length Z.of_nat Z.eqb Py.pop_last]. run.
  eexists. split; [reflexivity|]. fields. repeat split. exact Hempty.
Qed.

Lemma send_with_zero_capacity_raises_witness :
  fst (send (fun _ => Written) "PING" [] 0
         (with_capacities 0 10 (default sample_lang true)))
    = Raise IndexError.
Proof.
  destruct (send_with_zero_capacity_raises (fun _ => Written) "PING" [] 0
              (with_capacities 0 10 (default sample_lang true)))
    as (s' & Hrun & _).
  - reflexivity.
  - reflexivity.
  - reflexivity.
  - cbn. lia.
  - rewrite Hrun. reflexivity.
Defined.

(** ** The histories beyond their capacity *)

Lemma _add_command_overfull command s :
  c_buf_length s < Z.of_nat (length (command_buffer s)) ->
  _add_command command s
    = (Ok tt, with_command_buffer (command :: command_buffer s) s).
Proof.
  intros Hover. unfold _add_command. run.
  destruct (Z.eqb_spec (Z.of_nat (length (command_buffer s))) (c_buf_length s));
    [lia|].
  run. fields. reflexivity.
Qed.

(** X5. Eviction happens only when the length equals the capacity: once
    the command history is longer than [c_buf_length] (the capacity was
    lowered under it), pushes evict nothing and the history keeps every
    item pushed, growing by one each time. *)
Theorem overfull_history_never_evicts
    (items : list string) (s : BTCommunicator)
    (Hover : c_buf_length s < Z.of_nat (length (command_buffer s))) :
  command_buffer (push_commands items s) = (rev items ++ command_buffer s)%list.
Proof.
  revert s Hover. induction items as [|x rest IH]; intros s Hover.
  - reflexivity.
  - cbn [push_commands fold_left]. fold (push_commands rest).
    rewrite _add_command_overfull by assumption. cbn [snd].
    rewrite IH by (fields; cbn [length]; lia).
    fields. cbn [rev]. rewrite <- app_assoc. reflexivity.
Qed.

Lemma overfull_history_never_evicts_witness :
  let s := with_capacities 1 10
             (with_command_buffer ["B"; "A"] (default sample_lang true)) in
  command_buffer (push_commands ["C"; "D"] s) = ["D"; "C"; "B"; "A"].
Proof.
  cbv zeta.
  apply (overfull_history_never_evicts ["C"; "D"]
           (with_capacities 1 10
              (with_command_buffer ["B"; "A"] (default sample_lang true)))).
  cbn. lia.
Defined.

(** X6. A sentinel that arrives right after a command was recorded takes
    that command off again: the history is back to what it was, except for
    the oldest entry when recording had to evict it. *)
Theorem sentinel_undoes_last_command
    (command : string) (s : BTCommunicator)
    (Hcap : 0 < c_buf_length s) :
  let s1 := snd (_add_command command s) in
  exists s2,
    _add_response (unknown s1) s1 = (Ok tt, s2) /\
    command_buffer s2
      = (if Z.of_nat (length (command_buffer s)) =? c_buf_length s
         then removelast (command_buffer s) else command_buffer s) /\
    events s2 = (events s ++ [on_unknown])%list.
Proof.
  cbv zeta. rewrite _add_command_ok by assumption. cbn [snd]. fields.
  unfold _add_response. run. fields. rewrite String.eqb_refl.
  cbn [Py.pop_first]. run. fields.
  eexists. split; [reflexivity|]. fields. split; reflexivity.
Qed.

Lemma sentinel_undoes_last_command_witness :
  let s := with_command_buffer ["OLD"] (default sample_lang true) in
  command_buffer
    (snd (_add_response "UNSUPPORTED COMMAND" (snd (_add_command "NEW" s))))
  = ["OLD"].
Proof.
  cbv zeta.
  destruct (sentinel_undoes_last_command "NEW"
              (with_command_buffer ["OLD"] (default sample_lang true)))
    as (s2 & Hrun & Hbuf & _).
  - reflexivity.
  - cbv zeta in Hrun. cbn [unknown] in Hrun.
    change (unknown (snd (_add_command "NEW"
              (with_command_buffer ["OLD"] (default sample_lang true)))))
      with "UNSUPPORTED COMMAND" in Hrun.
    rewrite Hrun. cbn [snd]. rewrite Hbuf. reflexivity.
Defined.

(** ** Connecting, case by case *)

Lemma search_paired_skip pre name rest s :
  Forall (fun dev => getName dev <> name) pre ->
  search_paired (pre ++ rest) name s = search_paired rest name s.
Proof.
  induction 1 as [|dev pre Hdev _ IH]; [reflexivity|].
  cbn [app search_paired].
  destruct (String.eqb_spec (getName dev) name); [contradiction | exact IH].
Qed.

(** X7. Off Android (no [BluetoothAdapter] attribute) [connect] raises the
    [not_android] error whatever devices are bonded, and the object is
    exactly as it was. *)
Theorem connect_off_android
    (paired_devices : list device) (s : BTCommunicator)
    (Hoff : BluetoothAdapter s = false) :
  connect paired_devices s
    = (Raise (BTCommunicatorException (not_android (_lang s))), s).
Proof.
  unfold connect, _get_socket_stream. run. rewrite Hoff. reflexivity.
Qed.

Lemma connect_off_android_witness :
  connect [] (default sample_lang false)
    = (Raise (BTCommunicatorException "only on android"), default sample_lang false).
Proof.
  apply (connect_off_android [] (default sample_lang false)). reflexivity.
Defined.

(** X8. [connect] takes the first bonded device that bears the configured
    name and looks no further: when its socket connects, the call returns
    normally with that device's socket and streams stored, whatever devices
    follow it in the list. *)
Theorem connect_uses_first_match
    (pre rest : list device) (dev : device) (s : BTCommunicator)
    (Handroid : BluetoothAdapter s = true)
    (Hpre : Forall (fun d => getName d <> device_name s) pre)
    (Hname : getName dev = device_name s)
    (Hconnects : connect_raises dev = None) :
  connect (pre ++ dev :: rest) s
    = (Ok tt,
       with_streams (Some (getInputStream dev)) (Some (getOutputStream dev))
         (with_socket (Some (createRfcommSocket dev)) s)).
Proof.
  unfold connect, _get_socket_stream. run. rewrite Handroid. run. fields.
  rewrite search_paired_skip by assumption.
  cbn [search_paired]. rewrite Hname, String.eqb_refl. run.
  rewrite Hconnects. run. fields. reflexivity.
Qed.

Lemma connect_uses_first_match_witness :
  let other := {| getName := "HC-05"; createRfcommSocket := 1%nat;
                  getInputStream := 2%nat; getOutputStream := 3%nat;
                  connect_raises := None |} in
  let first := {| getName := "HC-06"; createRfcommSocket := 4%nat;
                  getInputStream := 5%nat; getOutputStream := 6%nat;
                  connect_raises := None |} in
  let second := {| getName := "HC-06"; createRfcommSocket := 7%nat;
                   getInputStream := 8%nat; getOutputStream := 9%nat;
                   connect_raises := None |} in
  _send_stream (snd (connect [other; first; second] (default sample_lang true)))
    = Some 6%nat.
Proof.
  cbv zeta.
  pose proof (connect_uses_first_match
             [{| getName := "HC-05"; createRfcommSocket := 1%nat;
                 getInputStream := 2%nat; getOutputStream := 3%nat;
                 connect_raises := None |}]
             [{| getName := "HC-06"; createRfcommSocket := 7%nat;
                 getInputStream := 8%nat; getOutputStream := 9%nat;
                 connect_raises := None |}]
             {| getName := "HC-06"; createRfcommSocket := 4%nat;
                getInputStream := 5%nat; getOutputStream := 6%nat;
                connect_raises := None |}
             (default sample_lang true)) as Hfirst.
  cbn [app] in Hfirst. rewrite Hfirst.
  - reflexivity.
  - reflexivity.
  - repeat constructor. discriminate.
  - reflexivity.
  - reflexivity.
Defined.

(** X9. When [socket.connect()] of the first matching device raises, the
    Java exception leaves [connect] as it is (not wrapped in a
    [BTCommunicatorException]); [self.socket] already holds the new socket,
    the two stream properties keep their old values, and no later device of
    the same name is tried. *)
Theorem connect_socket_failure_propagates
    (pre rest : list device) (dev : device) (msg : string) (s : BTCommunicator)
    (Handroid : BluetoothAdapter s = true)
    (Hpre : Forall (fun d => getName d <> device_name s) pre)
    (Hname : getName dev = device_name s)
    (Hraises : connect_raises dev = Some msg) :
  connect (pre ++ dev :: rest) s
    = (Raise (JavaException msg), with_socket (Some (createRfcommSocket dev)) s).
Proof.
  unfold connect, _get_socket_stream. run. rewrite Handroid. run. fields.
  rewrite search_paired_skip by assumption.
  cbn [search_paired]. rewrite Hname, String.eqb_refl. run.
  rewrite Hraises. run. fields. reflexivity.
Qed.

Lemma connect_socket_failure_propagates_witness :
  let dead := {| getName := "HC-06"; createRfcommSocket := 4%nat;
                 getInputStream := 5%nat; getOutputStream := 6%nat;
                 connect_raises := Some "host is down" |} in
  let live := {| getName := "HC-06"; createRfcommSocket := 7%nat;
                 getInputStream := 8%nat; getOutputStream := 9%nat;
                 connect_raises := None |} in
  fst (connect [dead; live] (default sample_lang true))
    = Raise (JavaException "host is down") /\
  _send_stream (snd (connect [dead; live] (default sample_lang true))) = None.
Proof.
  cbv zeta.
  pose proof (connect_socket_failure_propagates []
             [{| getName := "HC-06"; createRfcommSocket := 7%nat;
                 getInputStream := 8%nat; getOutputStream := 9%nat;
                 connect_raises := None |}]
             {| getName := "HC-06"; createRfcommSocket := 4%nat;
                getInputStream := 5%nat; getOutputStream := 6%nat;
                connect_raises := Some "host is down" |}
             "host is down" (default sample_lang true)) as Hdead.
  cbn [app] in Hdead. rewrite Hdead.
  - split; reflexivity.
  - reflexivity.
  - constructor.
  - reflexivity.
  - reflexivity.
Defined.

(** X10. On Android, without a bonded device of the configured name,
    [connect] raises the device-name error naming the device; [self.socket]
    is reset to [None] and the stream properties keep their values, so a
    failed reconnect does not drop the streams of an earlier connection. *)
Theorem connect_without_match
    (paired_devices : list device) (s : BTCommunicator)
    (Handroid : BluetoothAdapter s = true)
    (Hnone : Forall (fun d => getName d <> device_name s) paired_devices) :
  connect paired_devices s
    = (Raise (BTCommunicatorException
                (Py.format2 (device_name_error (_lang s)) (device_name s))),
       with_socket None s).
Proof.
  unfold connect, _get_socket_stream. run. rewrite Handroid. run. fields.
  rewrite <- (app_nil_r paired_devices).
  rewrite search_paired_skip by assumption.
  cbn [search_paired]. run. fields. reflexivity.
Qed.

Lemma connect_without_match_witness :
  let other := {| getName := "HC-05"; createRfcommSocket := 1%nat;
                  getInputStream := 2%nat; getOutputStream := 3%nat;
                  connect_raises := None |} in
  let s := with_streams (Some 5%nat) (Some 6%nat) (default sample_lang true) in
  fst (connect [other] s)
    = Raise (BTCommunicatorException "no paired device named HC-06") /\
  _send_stream (snd (connect [other] s)) = Some 6%nat.
Proof.
  cbv zeta.
  rewrite (connect_without_match
             [{| getName := "HC-05"; createRfcommSocket := 1%nat;
                 getInputStream := 2%nat; getOutputStream := 3%nat;
                 connect_raises := None |}]
             (with_streams (Some 5%nat) (Some 6%nat) (default sample_lang true))).
  - split; reflexivity.
  - reflexivity.
  - repeat constructor. discriminate.
Defined.

(** ** Disconnecting, again and before connecting *)

Lemma stop_reader_stream_run s :
  stop_reader_stream s
    = (Ok tt,
       with_stop true
         (with_is_pingning false
            (with_ping_schedule
               (if _is_pingning s then [] else ping_schedule s) s))).
Proof.
  unfold stop_reader_stream, stop_ping. run.
  destruct (_is_pingning s) eqn:Hping; run; fields.
  - reflexivity.
  - destruct s; cbn in Hping; subst; reflexivity.
Qed.

Lemma disconnect_exact close_raises s :
  let s1 := with_stop true
              (with_is_pingning false
                 (with_ping_schedule
                    (if _is_pingning s then [] else ping_schedule s) s)) in
  disconnect close_raises s
    = if closes close_raises (_recv_stream s) && closes close_raises (_send_stream s)
      then (Ok tt,
            if is_connected s
            then with_events (events s ++ [on_disconnected])
                   (with_is_connected false s1)
            else s1)
      else (Raise (BTCommunicatorException (disconnect_error (_lang s))), s1).
Proof.
  cbv zeta. unfold disconnect. run. rewrite stop_reader_stream_run.
  run. fields. unfold close, closes.
  destruct (_recv_stream s) as [hr|]; [destruct (close_raises hr) |];
    run; fields; try reflexivity.
  destruct (_send_stream s) as [hs|]; [destruct (close_raises hs) |];
    run; fields; try reflexivity.
  rewrite set_is_connected_false. fields. reflexivity.
Qed.

(** X11. [disconnect] on an object that holds no input stream (it never
    connected) fails: closing [None] raises, the bare [except] turns that
    into the disconnect error, and [is_connected] and the events are left
    as they were. *)
Theorem disconnect_before_connect
    (close_raises : handle -> option string) (s : BTCommunicator)
    (Hfresh : _recv_stream s = None) :
  exists s',
    disconnect close_raises s
      = (Raise (BTCommunicatorException (disconnect_error (_lang s))), s') /\
    is_connected s' = is_connected s /\
    events s' = events s /\
    _stop s' = true.
Proof.
  rewrite disconnect_exact. rewrite Hfresh. cbn [closes andb].
  eexists. split; [reflexivity|]. fields. repeat split.
Qed.

Lemma disconnect_before_connect_witness :
  fst (disconnect (fun _ => None) (default sample_lang true))
    = Raise (BTCommunicatorException "disconnect failed").
Proof.
  destruct (disconnect_before_connect (fun _ => None) (default sample_lang true))
    as (s' & Hrun & _).
  - reflexivity.
  - rewrite Hrun. reflexivity.
Defined.

(** X12. When both streams close, [disconnect] is idempotent: a second
    call returns normally and leaves the object exactly as the first call
    left it, so it dispatches no second [on_disconnected]. *)
Theorem disconnect_twice
    (close_raises : handle -> option string) (s : BTCommunicator)
    (Hcloses : closes close_raises (_recv_stream s)
               && closes close_raises (_send_stream s) = true) :
  fst (disconnect close_raises s) = Ok tt /\
  disconnect close_raises (snd (disconnect close_raises s))
    = (Ok tt, snd (disconnect close_raises s)).
Proof.
  rewrite (disconnect_exact close_raises s). cbv zeta. rewrite Hcloses.
  cbn [fst snd]. split; [reflexivity|].
  rewrite disconnect_exact. cbv zeta.
  destruct (is_connected s) eqn:Hconn; fields; rewrite Hcloses;
    rewrite ?Hconn; reflexivity.
Qed.

Lemma disconnect_twice_witness :
  let s := with_streams (Some 1%nat) (Some 2%nat)
             (with_is_connected true (default sample_lang true)) in
  events (snd (disconnect (fun _ => None) (snd (disconnect (fun _ => None) s))))
    = [on_disconnected].
Proof.
  cbv zeta.
  destruct (disconnect_twice (fun _ => None)
              (with_streams (Some 1%nat) (Some 2%nat)
                 (with_is_connected true (default sample_lang true))))
    as (_ & Hagain).
  - reflexivity.
  - rewrite Hagain. reflexivity.
Defined.

(** X13. After [stop_reader_stream], and after [disconnect] whether it
    succeeded or raised, the reader loop sees the stop flag at its next
    iteration and returns without reading or changing anything. *)
Theorem reader_returns_after_stop
    (reads : list read_result) (close_raises : handle -> option string)
    (s : BTCommunicator) :
  _stream_reader reads (snd (stop_reader_stream s))
    = (Detached, snd (stop_reader_stream s)) /\
  _stream_reader reads (snd (disconnect close_raises s))
    = (Detached, snd (disconnect close_raises s)).
Proof.
  split.
  - rewrite stop_reader_stream_run. cbn [snd]. destruct reads; reflexivity.
  - rewrite disconnect_exact. cbv zeta.
    destruct (closes close_raises (_recv_stream s)
              && closes close_raises (_send_stream s)); cbn [snd];
      [destruct (is_connected s) |]; destruct reads; reflexivity.
Qed.

(** ** What the reader does with lines *)

(** X14. Lines without a frame are dropped silently: a connected reader
    that reads only such lines leaves the session exactly as it was and
    goes on waiting for input. *)
Theorem reader_skips_unframed_lines
    (lines : list string) (s : BTCommunicator)
    (Hrun : _stop s = false) (Hconn : is_connected s = true)
    (Hnone : Forall (fun line => decode line = None) lines) :
  _stream_reader (map Line lines) s = (Blocked, s).
Proof.
  induction Hnone as [|line lines Hline _ IH]; cbn [map _stream_reader];
    rewrite Hrun, Hconn.
  - reflexivity.
  - rewrite Hline. exact IH.
Qed.

Lemma reader_skips_unframed_lines_witness :
  let s := with_is_connected true (default sample_lang true) in
  _stream_reader [Line "boot ok"; Line "a > b"; Line "<half"] s = (Blocked, s).
Proof.
  cbv zeta.
  apply (reader_skips_unframed_lines ["boot ok"; "a > b"; "<half"]
           (with_is_connected true (default sample_lang true)));
    [reflexivity | reflexivity | repeat constructor].
Defined.

Lemma _add_response_push (n : nat) response s :
  response <> unknown s ->
  0 < r_buf_length s ->
  r_buf_length s = Z.of_nat n ->
  (length (response_buffer s) <= n)%nat ->
  _add_response response s
    = (Ok tt, with_response_buffer (firstn n (response :: response_buffer s)) s).
Proof.
  intros Hne Hpos Hcap Hlen.
  pose proof (_add_response_spec n response s Hne Hcap Hlen) as Hstate.
  unfold _add_response in *. revert Hstate. run.
  destruct (String.eqb_spec response (unknown s)) as [|_]; [contradiction|].
  destruct (Z.eqb_spec (Z.of_nat (length (response_buffer s))) (r_buf_length s)) as [E|E].
  - destruct (response_buffer s) as [|c b] eqn:Hb; cbn [Py.pop_last]; run; fields.
    + cbn [length] in E. lia.
    + intros ->. reflexivity.
  - run; fields. intros ->. reflexivity.
Qed.

(** X15. Framed lines reach the response history in the order read: a
    connected reader that reads lines decoding to payloads other than the
    sentinel ends up waiting for input, with those payloads at the head of
    the history, most recent first, cut to the capacity; it dispatches no
    event for them. *)
Theorem reader_delivers_in_order
    (lines payloads : list string) (s : BTCommunicator)
    (Hrun : _stop s = false) (Hconn : is_connected s = true)
    (Hdec : Forall2 (fun line payload => decode line = Some payload) lines payloads)
    (Hne : Forall (fun payload => payload <> unknown s) payloads)
    (Hpos : 0 < r_buf_length s)
    (Hfit : Z.of_nat (length (response_buffer s)) <= r_buf_length s) :
  _stream_reader (map Line lines) s
    = (Blocked,
       with_response_buffer
         (firstn (Z.to_nat (r_buf_length s)) (rev payloads ++ response_buffer s)) s).
Proof.
  revert s Hrun Hconn Hne Hpos Hfit.
  induction Hdec as [|line payload lines payloads Hline _ IH];
    intros s Hrun Hconn Hne Hpos Hfit; cbn [map _stream_reader];
    rewrite Hrun, Hconn.
  - cbn [rev app]. rewrite firstn_all2 by lia.
    rewrite with_response_buffer_same. reflexivity.
  - rewrite Hline. inversion Hne as [|? ? Hp Hrest]; subst.
    rewrite (_add_response_push (Z.to_nat (r_buf_length s))) by (assumption || lia).
    rewrite IH; fields; try assumption.
    + rewrite firstn_app_firstn. cbn [rev]. rewrite <- app_assoc. reflexivity.
    + pose proof (firstn_le_length (Z.to_nat (r_buf_length s))
                    (payload :: response_buffer s)). lia.
Qed.

Lemma reader_delivers_in_order_witness :
  let s := with_capacities 10 2 (with_is_connected true (default sample_lang true)) in
  response_buffer (snd (_stream_reader [Line "<T=21>"; Line "x<T=22>"; Line "<T=23>y"] s))
    = ["T=23"; "T=22"].
Proof.
  cbv zeta.
  pose proof (reader_delivers_in_order ["<T=21>"; "x<T=22>"; "<T=23>y"]
                ["T=21"; "T=22"; "T=23"]
                (with_capacities 10 2
                   (with_is_connected true (default sample_lang true)))) as Hread.
  cbn [map] in Hread. rewrite Hread.
  - reflexivity.
  - reflexivity.
  - reflexivity.
  - repeat constructor.
  - repeat constructor; discriminate.
  - reflexivity.
  - cbn. lia.
Defined.

(** X16. Decoding undoes framing: whatever precedes the frame on the
    line, a framed payload that contains no ["<"] decodes to itself, even
    if it contains [">"]. *)
Theorem decode_framed
    (noise payload : string) (Hclean : ~ occurs "<" payload) :
  decode (noise ++ framed payload) = Some payload.
Proof.
  rewrite <- (string_of_list_ascii_of_string (noise ++ framed payload)).
  rewrite <- (string_of_list_ascii_of_string payload) at 2.
  apply decode_chars_Some.
  exists (list_ascii_of_string noise), [].
  repeat split; try exact Hclean; try (intros []).
  unfold framed. rewrite list_ascii_of_string_app. cbn [append list_ascii_of_string].
  rewrite list_ascii_of_string_app. reflexivity.
Qed.

Lemma decode_framed_witness :
  decode ("garbage" ++ framed "A>B") = Some "A>B".
Proof.
  apply (decode_framed "garbage" "A>B").
  intros H. cbn in H.
  repeat (destruct H as [H|H]; [discriminate|]). exact H.
Defined.

(** ** What a step can and cannot change *)

Lemma with_histories_events_same s :
  with_events (events s)
    (with_response_buffer (response_buffer s)
       (with_command_buffer (command_buffer s) s)) = s.
Proof. destruct s; reflexivity. Qed.

(** The callback changes the histories and the events only, and the only
    event it adds is one [on_unknown]. *)
Lemma _add_response_shape response s :
  exists r cb rb ev,
    _add_response response s
      = (r, with_events ev (with_response_buffer rb (with_command_buffer cb s))) /\
    (ev = events s \/ ev = (events s ++ [on_unknown])%list).
Proof.
  unfold _add_response. run.
  destruct (String.eqb response (unknown s)).
  - destruct (command_buffer s) as [|c b] eqn:Hb; cbn [Py.pop_first]; run; fields.
    + exists (Raise IndexError), (command_buffer s), (response_buffer s), (events s).
      rewrite with_histories_events_same. split; [reflexivity | left; reflexivity].
    + exists (Ok tt), b, (response_buffer s), (events s ++ [on_unknown])%list.
      split; [reflexivity | right; reflexivity].
  - destruct (Z.of_nat (length (response_buffer s)) =? r_buf_length s).
    + destruct (response_buffer s) as [|c b] eqn:Hb; cbn [Py.pop_last]; run; fields.
      * exists (Raise IndexError), (command_buffer s), (response_buffer s), (events s).
        rewrite with_histories_events_same. split; [reflexivity | left; reflexivity].
      * exists (Ok tt), (command_buffer s),
          (Py.insert_first response (removelast (c :: b))), (events s).
        split; [reflexivity | left; reflexivity].
    + run; fields.
      exists (Ok tt), (command_buffer s),
        (Py.insert_first response (response_buffer s)), (events s).
      split; [reflexivity | left; reflexivity].
Qed.

Lemma _stream_reader_shape reads :
  forall s,
    exists x cb rb ev,
      _stream_reader reads s
        = (x, with_events ev (with_response_buffer rb (with_command_buffer cb s))).
Proof.
  assert (forall (x : reader_exit) s, exists x' cb rb ev,
            (x, s) = (x', with_events ev
                            (with_response_buffer rb (with_command_buffer cb s))))
    as Hsame.
  { intros x s. exists x, (command_buffer s), (response_buffer s), (events s).
    rewrite with_histories_events_same. reflexivity. }
  induction reads as [|rd rest IH]; intros s; cbn [_stream_reader].
  - destruct (_stop s), (is_connected s); apply Hsame.
  - destruct (_stop s); [apply Hsame|].
    destruct (is_connected s); [| apply Hsame].
    destruct rd; try apply Hsame.
    destruct (decode stream) as [response|]; [| apply IH].
    destruct (_add_response_shape response s) as (r & cb & rb & ev & Hadd & _).
    rewrite Hadd. destruct r as [[]|e].
    + destruct (IH (with_events ev
                      (with_response_buffer rb (with_command_buffer cb s))))
        as (x & cb' & rb' & ev' & Hrest).
      rewrite Hrest. exists x, cb', rb', ev'. reflexivity.
    + do 4 eexists. reflexivity.
Qed.

Lemma _stream_reader_one_event rd s :
  events (snd (_stream_reader [rd] s)) = events s \/
  events (snd (_stream_reader [rd] s)) = (events s ++ [on_unknown])%list.
Proof.
  cbn [_stream_reader].
  destruct (_stop s) eqn:Hstop; [left; reflexivity|].
  destruct (is_connected s) eqn:Hconn; [| left; reflexivity].
  destruct rd; try (left; reflexivity).
  destruct (decode stream) as [response|]; [| left; reflexivity].
  destruct (_add_response_shape response s) as (r & cb & rb & ev & Hadd & Hev).
  rewrite Hadd. destruct r as [[]|e]; fields; rewrite ?Hstop, ?Hconn;
    cbn [snd]; fields; destruct Hev as [-> | ->]; auto.
Qed.

(** What [send] changes: the write attempts, the command history, the
    events and [is_connected], and of the last two only in step. *)
Lemma send_shape tr command args tries s :
  exists r w cb ic ev,
    send tr command args tries s
      = (r, with_events ev
              (with_is_connected ic
                 (with_command_buffer cb (with_write_attempts w s)))) /\
    ((ev = events s /\ ic = is_connected s) \/
     (ev = (events s ++ [on_command_sent])%list /\ ic = is_connected s) \/
     (ev = (events s ++ [on_disconnected])%list /\ ic = false /\ is_connected s = true)).
Proof.
  destruct (send_loop_run tr (line_of command args)
              (Py.range 1 (resends_of tries s)) false "" s) as (e & m & w & Hrun).
  rewrite (send_after_loop _ _ _ _ _ _ _ _ Hrun). destruct e.
  - rewrite set_is_connected_false. cbn [snd]. fields.
    destruct (is_connected s) eqn:Hconn.
    + exists (Raise (BTCommunicatorException m)), w, (command_buffer s), false,
        (events s ++ [on_disconnected])%list.
      split; [reflexivity | right; right; repeat split].
    + exists (Raise (BTCommunicatorException m)), w, (command_buffer s),
        (is_connected s), (events s).
      split; [reflexivity | left; split; [reflexivity | exact Hconn]].
  - run. destruct (_add_command_frame command (with_write_attempts w s))
      as (r & b & Hadd & _).
    rewrite Hadd. destruct r as [[]|x]; fields.
    + exists (Ok tt), w, b, (is_connected s), (events s ++ [on_command_sent])%list.
      split; [reflexivity | right; left; split; reflexivity].
    + exists (Raise x), w, b, (is_connected s), (events s).
      split; [reflexivity | left; split; reflexivity].
Qed.

(** X17. A step of the session dispatches at most one event, appended to
    those dispatched before, and that event is [on_disconnected],
    [on_command_sent] or [on_unknown]: no method of the class ever
    dispatches [on_connected], [on_response] or [on_error]. *)
Theorem step_dispatches_at_most_one (a : action) (s : BTCommunicator) :
  exists l,
    events (step a s) = (events s ++ l)%list /\
    (l = [] \/ l = [on_disconnected] \/ l = [on_command_sent] \/ l = [on_unknown]).
Proof.
  assert (forall s', events s' = events s ->
            exists l, events s' = (events s ++ l)%list /\
              (l = [] \/ l = [on_disconnected] \/ l = [on_command_sent]
               \/ l = [on_unknown])) as Hquiet.
  { intros s' ->. exists []. rewrite app_nil_r. auto. }
  destruct a; cbn [step].
  - destruct (connect_frame paired_devices s) as (r & so & rs & ws & Hrun).
    rewrite Hrun. apply Hquiet. reflexivity.
  - rewrite disconnect_exact. cbv zeta.
    destruct (closes close_raises (_recv_stream s)
              && closes close_raises (_send_stream s)); cbn [snd];
      [destruct (is_connected s) |]; try (apply Hquiet; reflexivity).
    exists [on_disconnected]. fields. auto.
  - apply Hquiet. reflexivity.
  - rewrite stop_reader_stream_run. apply Hquiet. reflexivity.
  - apply Hquiet. reflexivity.
  - apply Hquiet. reflexivity.
  - destruct (send_shape tr command args tries s)
      as (r & w & cb & ic & ev & Hrun & Hev).
    rewrite Hrun. cbn [snd]. fields.
    destruct Hev as [[-> _] | [[-> _] | [-> _]]];
      [apply Hquiet; reflexivity | eexists; eauto | eexists; eauto].
  - unfold _ping.
    destruct (send_shape tr "PING" [] 0 s) as (r & w & cb & ic & ev & Hrun & Hev).
    rewrite Hrun. cbn [snd]. fields.
    destruct Hev as [[-> _] | [[-> _] | [-> _]]];
      [apply Hquiet; reflexivity | eexists; eauto | eexists; eauto].
  - destruct (_stream_reader_one_event rd s) as [H | H].
    + apply Hquiet. exact H.
    + exists [on_unknown]. auto.
  - destruct v.
    + rewrite set_is_connected_true. cbn [snd].
      destruct (is_connected s); apply Hquiet; reflexivity.
    + rewrite set_is_connected_false. cbn [snd].
      destruct (is_connected s); [| apply Hquiet; reflexivity].
      exists [on_disconnected]. fields. auto.
Qed.

(** X18. No method of the class marks the session connected: a step other
    than the application assigning [True] to [is_connected] leaves a
    disconnected session disconnected. *)
Theorem connected_only_by_assignment
    (a : action) (s : BTCommunicator)
    (Hoff : is_connected s = false) (Hother : a <> AssignIsConnected true) :
  is_connected (step a s) = false.
Proof.
  destruct a; cbn [step].
  - destruct (connect_frame paired_devices s) as (r & so & rs & ws & Hrun).
    rewrite Hrun. exact Hoff.
  - rewrite disconnect_exact. cbv zeta.
    destruct (closes close_raises (_recv_stream s)
              && closes close_raises (_send_stream s)); cbn [snd];
      [rewrite Hoff |]; exact Hoff.
  - exact Hoff.
  - rewrite stop_reader_stream_run. exact Hoff.
  - exact Hoff.
  - exact Hoff.
  - destruct (send_shape tr command args tries s)
      as (r & w & cb & ic & ev & Hrun & Hev).
    rewrite Hrun. cbn [snd]. fields.
    destruct Hev as [[_ ->] | [[_ ->] | [_ [-> _]]]]; auto.
  - unfold _ping.
    destruct (send_shape tr "PING" [] 0 s) as (r & w & cb & ic & ev & Hrun & Hev).
    rewrite Hrun. cbn [snd]. fields.
    destruct Hev as [[_ ->] | [[_ ->] | [_ [-> _]]]]; auto.
  - destruct (_stream_reader_shape [rd] s) as (x & cb & rb & ev & Hrun).
    rewrite Hrun. exact Hoff.
  - destruct v; [contradiction Hother; reflexivity|].
    rewrite set_is_connected_false. cbn [snd]. rewrite Hoff. exact Hoff.
Qed.

Lemma connected_only_by_assignment_witness :
  let hc06 := {| getName := "HC-06"; createRfcommSocket := 1%nat;
                 getInputStream := 2%nat; getOutputStream := 3%nat;
                 connect_raises := None |} in
  is_connected (step (Connect [hc06]) (default sample_lang true)) = false.
Proof.
  cbv zeta.
  apply (connected_only_by_assignment
           (Connect [{| getName := "HC-06"; createRfcommSocket := 1%nat;
                        getInputStream := 2%nat; getOutputStream := 3%nat;
                        connect_raises := None |}])
           (default sample_lang true)).
  - reflexivity.
  - discriminate.
Defined.

(** X19. [send], whatever its outcome, and a run of the reader loop leave
    the stop flag, the reader threads, the ping timer, the socket and the
    two streams as they were: a send that gives the connection up sets
    [is_connected] to false, and neither stops the reader or the ping nor
    closes anything. *)
Theorem send_and_reader_keep_wiring
    (tr : transport) (command : string) (args : list string) (tries : Z)
    (reads : list read_result) (s : BTCommunicator) :
  same_wiring s (snd (send tr command args tries s)) /\
  same_wiring s (snd (_stream_reader reads s)).
Proof.
  split.
  - destruct (send_shape tr command args tries s)
      as (r & w & cb & ic & ev & Hrun & _).
    rewrite Hrun. unfold same_wiring. cbn [snd]. fields. repeat split.
  - destruct (_stream_reader_shape reads s) as (x & cb & rb & ev & Hrun).
    rewrite Hrun. unfold same_wiring. cbn [snd]. fields. repeat split.
Qed.

Lemma step_pinging_consistent a s :
  pinging_consistent s -> pinging_consistent (step a s).
Proof.
  unfold pinging_consistent. intros Hok. destruct a; cbn [step].
  - destruct (connect_frame paired_devices s) as (r & so & rs & ws & Hrun).
    rewrite Hrun. exact Hok.
  - rewrite disconnect_exact. cbv zeta.
    destruct (closes close_raises (_recv_stream s)
              && closes close_raises (_send_stream s)); cbn [snd];
      [destruct (is_connected s) |]; fields;
      destruct (_is_pingning s); reflexivity || exact Hok.
  - exact Hok.
  - rewrite stop_reader_stream_run. cbn [snd]. fields.
    destruct (_is_pingning s); reflexivity || exact Hok.
  - unfold start_ping. run. fields. destruct (ping_schedule s); reflexivity.
  - reflexivity.
  - destruct (send_shape tr command args tries s)
      as (r & w & cb & ic & ev & Hrun & _).
    rewrite Hrun. exact Hok.
  - unfold _ping.
    destruct (send_shape tr "PING" [] 0 s) as (r & w & cb & ic & ev & Hrun & _).
    rewrite Hrun. exact Hok.
  - destruct (_stream_reader_shape [rd] s) as (x & cb & rb & ev & Hrun).
    rewrite Hrun. exact Hok.
  - destruct v; [rewrite set_is_connected_true | rewrite set_is_connected_false];
      cbn [snd]; destruct (is_connected s); exact Hok.
Qed.

(** X20. The ping flag tells the truth: in every state the session gets
    into from one where [_is_pingning] is true exactly when a ping is
    scheduled (a new object, for one), it is so again; in particular
    [stop_reader_stream] never leaves a ping behind that the flag denies. *)
Theorem ping_flag_tracks_schedule
    (s s' : BTCommunicator)
    (Hinit : pinging_consistent s) (Hreach : reachable s s') :
  pinging_consistent s'.
Proof.
  induction Hreach as [|a s' _ IH].
  - exact Hinit.
  - apply step_pinging_consistent, IH.
Qed.

Lemma ping_flag_tracks_schedule_witness :
  let s := default sample_lang true in
  pinging_consistent
    (step StopReaderStream (step (StartPing 0) (step (StartPing 5) s))).
Proof.
  cbv zeta.
  apply (ping_flag_tracks_schedule (default sample_lang true)).
  - reflexivity.
  - do 3 apply reachable_step. apply reachable_start.
Defined.

